(** * File viewer views of olympia.files (src/olympia/files/views.py)

    A shallow embedding of the view handlers [setup_viewer], [poll],
    [check_compare_form], [browse], [compare_poll], [compare], [redirect],
    [serve] and of the [BrowseViewSet] class, with the properties the
    specification states about them.

    The handlers are glue over collaborators that live in other modules
    (the file viewer, the diff helper, the cache, the ACL, the URL resolver).
    The collaborators are interfaces here: type classes for the objects the
    handlers receive and for the functions they call. *)

From stdpp Require Import gmap strings list fin_maps.

Set Warnings "-register-all".

Open Scope string_scope.
Open Scope Z_scope.

(** ** Model objects read by the views *)

(** [addon.pk] and [addon.slug]. *)
Record Addon := mkAddon { pk : Z; slug : string }.

(** [version.addon]. *)
Record Version := mkVersion { version_pk : Z; addon : Addon }.

(** The attributes of a [File] that [setup_viewer] reads:
    [file_obj.id], [file_obj.version], [file_obj.automated_signing],
    [file_obj.has_been_validated] and
    [file_obj.validation.processed_validation] (a JSON document, kept as its
    text; only read when [has_been_validated] holds). *)
Record File := mkFile {
  id : Z;
  version : Version;
  automated_signing : bool;
  has_been_validated : bool;
  processed_validation : string
}.

(** One entry of [viewer.get_files()]: a non-empty dict of which [serve]
    reads ['full'] and ['mimetype']. *)
Record FileEntry := mkFileEntry { full : string; mimetype : string }.

(** The parts of the HTTP request the views look at: [request.method],
    [request.path], the query string [request.GET], the form data
    [request.POST] and the requesting user (what the ACL collaborators
    decide on). *)
Record Request := mkRequest {
  method : string;
  path : string;
  GET : gmap string string;
  POST : gmap string string;
  user : Z
}.

(** The bound [forms.FileCompareForm]: [form.is_valid()],
    [form.cleaned_data['left']] and [form.cleaned_data.get('right')].
    Both fields of the form are model choices, so the cleaned values are
    [File] objects, and the optional one is [None] when left out. *)
Record Form := mkForm {
  is_valid : bool;
  cleaned_left : File;
  cleaned_right : option File
}.

(** ** Collaborator interfaces *)

(** The file viewer object handed to the views by [file_view]. [select] is
    the one method the views call for its effect on the viewer; it returns
    the viewer as it is afterwards. The other methods are read on the state
    of the viewer at the time of the call. *)
Class FileViewer (V : Type) := {
  viewer_file : V -> File;                       (* viewer.file *)
  viewer_addon : V -> Addon;                     (* viewer.addon *)
  viewer_str : V -> string;                      (* '%s' % viewer *)
  is_extracted : V -> bool;
  select : option string -> V -> V;
  get_selected_file : V -> option string -> option string;
  get_files : V -> gmap string FileEntry;
  is_directory : V -> bool;
  is_binary : V -> bool;
  read_file : V -> string
}.

(** The diff object handed to the views by [compare_file_view]. *)
Class DiffHelper (V D : Type) := {
  left : D -> V;                                 (* diff.left *)
  right : D -> V;                                (* diff.right *)
  diff_addon : D -> Addon;                       (* diff.addon *)
  diff_is_extracted : D -> bool;
  diff_select : option string -> D -> D;
  diff_get_files : D -> gmap string FileEntry;
  diff_get_deleted_files : D -> gmap string FileEntry;
  is_diffable : D -> bool;
  diff_read_file : D -> string * string
}.

(** ** Python values, responses and exceptions *)

Section Values.
Context {V D : Type}.

(** The values that end up in template contexts, JSON bodies and URL
    arguments. Objects are carried as they are. *)
Inductive value :=
| VNone
| VBool (b : bool)
| VInt (z : Z)
| VStr (s : string)
| VList (l : list value)
| VDict (kvs : list (string * value))
| VFiles (files : gmap string FileEntry)
| VAddon (a : Addon)
| VVersion (v : Version)
| VFile (f : File)
| VForm (f : Form)
| VViewer (v : V)
| VDiff (d : D).

(** What a view hands back to the framework. *)
Inductive response :=
| Render (tmpl : string) (data : gmap string value)
| Redirect (url : string)
| SendFile (file_path : string) (content_type : string).

(** [data[k] = v] *)
Definition setitem (k : string) (v : value) (d : gmap string value)
  : gmap string value := <[k:=v]> d.

(** [data.update({k1: v1, ...})]: the items are stored in order. *)
Definition update (kvs : list (string * value)) (d : gmap string value)
  : gmap string value :=
  foldl (fun d kv => setitem kv.1 kv.2 d) d kvs.

(** A dict display [{k1: v1, ...}]. *)
Definition dict (kvs : list (string * value)) : gmap string value :=
  update kvs ∅.

End Values.

Arguments value : clear implicits.
Arguments response : clear implicits.

Inductive exn := Http404 | PermissionDenied.

Inductive result (A : Type) :=
| Ok (a : A)
| Raise (e : exn).

Arguments Ok {A} a.
Arguments Raise {A} e.

(** [key in files], for a key that may be [None]. *)
Definition key_in (key : option string) (files : gmap string FileEntry) : bool :=
  match key with
  | Some k => bool_decide (is_Some (files !! k))
  | None => false
  end.

(** Truth value of a message read from the cache ([if m:]): [None] and the
    empty string are false. *)
Definition truthy (m : option string) : bool :=
  match m with
  | Some s => negb (bool_decide (s = ""))
  | None => false
  end.

(** A string that may be [None], as a value. *)
Definition str_or_none {V D} (m : option string) : value V D :=
  match m with
  | Some s => VStr s
  | None => VNone
  end.

(** ** Function collaborators *)

(** [olympia.amo.urlresolvers.reverse(name, args=[...])] and
    [olympia.amo.utils.urlparams(url, token=...)]. *)
Class Urls (V D : Type) := {
  reverse : string -> list (value V D) -> string;
  urlparams : string -> string -> string
}.

(** [django.utils.translation.ugettext]. *)
Class Translation := { ugettext : string -> string }.

(** [acl.is_reviewer(request, addon)] and
    [acl.check_addon_ownership(request, addon, dev=.., ignore_disabled=..)]. *)
Class Acl := {
  is_reviewer : Request -> Addon -> bool;
  check_addon_ownership : Request -> Addon -> bool -> bool -> bool
}.

(** [forms.FileCompareForm(data, addon=..., initial={'left': ..,
    'right': ..}, request=request)]: the form over the posted data, [None]
    for no data. *)
Class Forms := {
  FileCompareForm :
    option (gmap string string) -> Addon -> File -> option File -> Request -> Form
}.

(** [str(uuid.uuid4())]: the n-th identifier drawn. *)
Class Uuid := { uuid4 : nat -> string }.

(** ** The cache: messages and tokens *)

(** The cache entries the views reach through [olympia.lib.cache]: pending
    messages by key, saved tokens by token string, and how many token
    strings have been drawn. *)
Record Cache := mkCache {
  messages : gmap string string;
  tokens : gmap string (Z * string);
  drawn : nat
}.

(** Modelled from the spec: [olympia.lib.cache.Message] is not part of the
    sources. [Message(key).get(delete=...)] returns the message pending
    under [key], [None] when there is none, and with [delete=True] removes
    it from the cache, so that it is delivered once. *)
Definition Message_get (key : string) (delete_ : bool) (c : Cache)
  : option string * Cache :=
  (messages c !! key,
   if delete_
   then mkCache (delete key (messages c)) (tokens c) (drawn c)
   else c).

(** A [Token] object: [new.token] and [new.data]. *)
Record Token := mkToken { token : string; data : Z * string }.

(** Modelled from the spec: [olympia.lib.cache.Token] is not part of the
    sources. [Token(data=...)] draws a new token string. *)
Definition Token_new `{!Uuid} (data : Z * string) (c : Cache) : Token * Cache :=
  (mkToken (uuid4 (drawn c)) data,
   mkCache (messages c) (tokens c) (S (drawn c))).

(** Modelled from the spec: [olympia.lib.cache.Token] is not part of the
    sources. [new.save()] stores the token's data in the cache under the
    token string. *)
Definition Token_save (t : Token) (c : Cache) : Cache :=
  mkCache (messages c) (<[token t := data t]> (tokens c)) (drawn c).

(** Modelled from the spec: [olympia.lib.cache.Token] is not part of the
    sources. A token string authorizes [data] when a token saved under it
    carries that data. *)
Definition Token_valid (t : string) (data : Z * string) (c : Cache) : bool :=
  bool_decide (tokens c !! t = Some data).

(** ** Decorators *)

(** The functions [condition] is given to evaluate per request. *)
Inductive condition_func := etag | last_modified.

(** The decorators imported by the module. [condition] carries its
    [etag_func] and [last_modified_func]. *)
Inductive decorator :=
| never_cache
| json_view
| csrf_exempt
| non_atomic_requests
| file_view
| compare_file_view
| file_view_token
| condition (etag_func last_modified_func : condition_func).

(** The decorators of a view, outermost first, as written above the
    [def]. *)
Definition poll_decorators : list decorator :=
  [never_cache; json_view; file_view; non_atomic_requests].

Definition compare_poll_decorators : list decorator :=
  [never_cache; compare_file_view; json_view; non_atomic_requests].

Definition serve_decorators : list decorator :=
  [file_view_token; non_atomic_requests].

(** An evaluation of one of the two condition functions for a request. *)
Inductive event := Evaluated (f : condition_func).

(** A computation together with the evaluations it has made, in order. *)
Definition traced (A : Type) : Type := list event * A.

(** ** The views *)

Section Views.
Context {V D : Type}.
Context `{!FileViewer V} `{!DiffHelper V D}.
Context `{!Urls V D} `{!Translation} `{!Acl} `{!Forms} `{!Uuid}.

Local Abbreviation value := (value V D).
Local Abbreviation response := (response V D).

(** *** setup_viewer *)

(** The dict display [setup_viewer] starts from. *)
Definition setup_viewer_initial (file_obj : File) : gmap string value :=
  let addon := addon (version file_obj) in
  dict [("file", VFile file_obj);
        ("version", VVersion (version file_obj));
        ("addon", VAddon addon);
        ("status", VBool false);
        ("selected", VDict []);
        ("validate_url", VStr "")].

Definition setup_viewer (request : Request) (file_obj : File)
  : gmap string value :=
  let addon := addon (version file_obj) in
  let data := setup_viewer_initial file_obj in
  let is_user_a_reviewer := is_reviewer request addon in
  let data :=
    if is_user_a_reviewer || check_addon_ownership request addon true true
    then
      let data :=
        setitem "validate_url"
          (VStr (reverse "devhub.json_file_validation"
                   [VStr (slug addon); VInt (id file_obj)])) data in
      let data :=
        setitem "automated_signing" (VBool (automated_signing file_obj)) data in
      if has_been_validated file_obj
      then setitem "validation_data" (VStr (processed_validation file_obj)) data
      else data
    else data in
  if is_user_a_reviewer
  then setitem "file_link"
         (VDict [("text", VStr (ugettext "Back to review"));
                 ("url", VStr (reverse "reviewers.review" [VStr (slug addon)]))])
         data
  else setitem "file_link"
         (VDict [("text", VStr (ugettext "Back to add-on"));
                 ("url", VStr (reverse "addons.detail" [VInt (pk addon)]))])
         data.

(** *** poll *)

(** ['file-viewer:%s' % viewer]: the key of the message pending for a
    viewer. *)
Definition message_key (viewer : V) : string :=
  "file-viewer:" ++ viewer_str viewer.

(** The body of [poll]: the returned dict and the cache afterwards. *)
Definition poll (request : Request) (viewer : V) (c : Cache)
  : gmap string value * Cache :=
  let status := is_extracted viewer in
  let '(m, c) := Message_get (message_key viewer) true c in
  (dict [("status", VBool status); ("msg", VList [str_or_none m])], c).

(** *** check_compare_form *)

(** [None] stands for falling off the end of the function. *)
Definition check_compare_form (request : Request) (form : Form)
  : option response :=
  if bool_decide (method request = "POST")
  then
    let url :=
      if is_valid form
      then
        let left := cleaned_left form in
        match cleaned_right form with
        | Some right => reverse "files.compare" [VFile left; VFile right]
        | None => reverse "files.list" [VFile left]
        end
      else path request in
    Some (Redirect url)
  else None.

(** *** browse *)

(** [request.POST or None]: an empty [POST] is false. *)
Definition POST_or_None (request : Request) : option (gmap string string) :=
  if bool_decide (POST request = ∅) then None else Some (POST request).

Definition browse (request : Request) (viewer : V)
    (key : option string) (type : string) : result response :=
  let form :=
    FileCompareForm (POST_or_None request) (viewer_addon viewer)
                    (viewer_file viewer) None request in
  match check_compare_form request form with
  | Some response => Ok response
  | None =>
    let data := setup_viewer request (viewer_file viewer) in
    let viewer := select key viewer in
    let key := get_selected_file viewer key in
    let files := get_files viewer in
    if negb (key_in key files) then Raise Http404
    else
      let data :=
        update [("viewer", VViewer viewer);
                ("poll_url",
                 VStr (reverse "files.poll" [VInt (id (viewer_file viewer))]));
                ("form", VForm form);
                ("status", VBool true);
                ("files", VFiles files);
                ("key", str_or_none key)] data in
      let data :=
        if negb (is_directory viewer) && negb (is_binary viewer)
        then setitem "content" (VStr (read_file viewer)) data
        else data in
      let tmpl :=
        if bool_decide (type = "fragment")
        then "files/content.html" else "files/viewer.html" in
      Ok (Render tmpl data)
  end.

(** *** compare_poll *)

(** One turn of the loop over [(diff.left, diff.right)]. *)
Definition compare_poll_step (acc : list value * Cache) (f : V)
  : list value * Cache :=
  let '(msgs, c) := acc in
  let '(m, c) := Message_get (message_key f) true c in
  if truthy m then ((msgs ++ [str_or_none m])%list, c) else (msgs, c).

Definition compare_poll (request : Request) (diff : D) (c : Cache)
  : gmap string value * Cache :=
  let '(msgs, c) := foldl compare_poll_step ([], c) [left diff; right diff] in
  (dict [("status", VBool (diff_is_extracted diff)); ("msg", VList msgs)], c).

(** *** compare *)

Definition compare (request : Request) (diff : D)
    (key : option string) (type : string) : result response :=
  let form :=
    FileCompareForm (POST_or_None request) (diff_addon diff)
                    (viewer_file (left diff))
                    (Some (viewer_file (right diff))) request in
  match check_compare_form request form with
  | Some response => Ok response
  | None =>
    let data := setup_viewer request (viewer_file (left diff)) in
    let data := setitem "diff" (VDiff diff) data in
    let data :=
      setitem "poll_url"
        (VStr (reverse "files.compare.poll"
                 [VInt (id (viewer_file (left diff)));
                  VInt (id (viewer_file (right diff)))])) data in
    let data := setitem "form" (VForm form) data in
    let files := diff_get_files diff in
    let files_deleted := diff_get_deleted_files diff in
    let data :=
      update [("status", VBool true);
              ("files", VFiles files);
              ("files_deleted", VFiles files_deleted)] data in
    let key := get_selected_file (left diff) key in
    if negb (key_in key files) && negb (key_in key files_deleted)
    then Raise Http404
    else
      let diff := diff_select key diff in
      (* data['diff'] is this object: the template sees it as selected *)
      let data := setitem "diff" (VDiff diff) data in
      let data := setitem "key" (str_or_none key) data in
      let data :=
        if is_diffable diff
        then
          let '(l, r) := diff_read_file diff in
          setitem "right" (VStr r) (setitem "left" (VStr l) data)
        else data in
      let tmpl :=
        if bool_decide (type = "fragment")
        then "files/content.html" else "files/viewer.html" in
      Ok (Render tmpl data)
  end.

(** *** redirect *)

Definition redirect (request : Request) (viewer : V) (key : string)
    (c : Cache) : response * Cache :=
  let '(new, c) := Token_new (id (viewer_file viewer), key) c in
  let c := Token_save new c in
  let url := reverse "files.serve" [VViewer viewer; VStr key] in
  let url := urlparams url (token new) in
  (Redirect url, c).

(** *** serve *)

Definition serve (request : Request) (viewer : V) (key : string)
  : result response :=
  let files := get_files viewer in
  match files !! key with
  | None => Raise Http404
  | Some obj => Ok (SendFile (full obj) (mimetype obj))
  end.

(** Modelled from the spec: [olympia.files.decorators.file_view_token] is
    not part of the sources. It lets a request through to the view only
    when the request carries, in its query string, a token saved for this
    file and key, and denies it otherwise. *)
Definition file_view_token_wrapper
    (func : Request -> V -> string -> result response)
    (request : Request) (viewer : V) (key : string) (c : Cache)
  : result response :=
  match GET request !! "token" with
  | None => Raise PermissionDenied
  | Some t =>
    if Token_valid t (id (viewer_file viewer), key) c
    then func request viewer key
    else Raise PermissionDenied
  end.

(** [serve] as routed: behind [file_view_token]. *)
Definition serve_view := file_view_token_wrapper serve.

(** *** BrowseViewSet.get_serializer_context *)

(** [super_context] is what [super().get_serializer_context()] returns and
    [kwargs] the URL keyword arguments of the view ([self.kwargs]);
    [kwargs.get('file', None)] is [None] for a missing argument. *)
Definition get_serializer_context (super_context : gmap string value)
    (kwargs : gmap string string) : gmap string value :=
  let context := super_context in
  update [("requested_file", str_or_none (kwargs !! "file"))] context.

(** *** Names used in the statements *)

(** The keys [browse] stores after [setup_viewer]. *)
Definition browse_updates : list string :=
  ["viewer"; "poll_url"; "form"; "status"; "files"; "key"; "content"].

(** The keys [compare] stores after [setup_viewer]. *)
Definition compare_updates : list string :=
  ["diff"; "poll_url"; "form"; "status"; "files"; "files_deleted"; "key";
   "left"; "right"].

(** The forms [browse] and [compare] build from the request. *)
Definition browse_form (request : Request) (viewer : V) : Form :=
  FileCompareForm (POST_or_None request) (viewer_addon viewer)
                  (viewer_file viewer) None request.

Definition compare_form (request : Request) (diff : D) : Form :=
  FileCompareForm (POST_or_None request) (diff_addon diff)
                  (viewer_file (left diff))
                  (Some (viewer_file (right diff))) request.

(** Where [check_compare_form] sends a POST. *)
Definition compare_form_target (request : Request) (form : Form) : string :=
  if is_valid form
  then match cleaned_right form with
       | Some r => reverse "files.compare" [VFile (cleaned_left form); VFile r]
       | None => reverse "files.list" [VFile (cleaned_left form)]
       end
  else path request.

(** The gate of [setup_viewer]: reviewer, or owner with [dev=True] and
    [ignore_disabled=True]. *)
Definition privileged (request : Request) (file_obj : File) : bool :=
  is_reviewer request (addon (version file_obj))
  || check_addon_ownership request (addon (version file_obj)) true true.


(** The keys [setup_viewer] may store after the initial display. *)
Definition setup_viewer_updates : list string :=
  ["validate_url"; "automated_signing"; "validation_data"; "file_link"].

(** The keys [setup_viewer] can return. *)
Definition setup_viewer_keys : list string :=
  ["file"; "version"; "addon"; "status"; "selected"; "validate_url";
   "automated_signing"; "validation_data"; "file_link"].

(** The template both views choose. *)
Definition template_for (type : string) : string :=
  if bool_decide (type = "fragment")
  then "files/content.html" else "files/viewer.html".

(** The viewer and the key [browse] works on once the key is selected. *)
Definition browse_viewer (viewer : V) (key : option string) : V :=
  select key viewer.

Definition browse_key (viewer : V) (key : option string) : option string :=
  get_selected_file (browse_viewer viewer key) key.

(** The key and the diff [compare] works on. *)
Definition compare_key (diff : D) (key : option string) : option string :=
  get_selected_file (left diff) key.

Definition compare_diff (diff : D) (key : option string) : D :=
  diff_select (compare_key diff key) diff.

End Views.

(** ** browse and compare as routed *)

(** A view over the URL arguments [(x, key, type)]: [x] is the viewer or
    the diff for the function as defined, the file id or the pair of file
    ids for the function as routed. *)
Definition view (V D X : Type) : Type :=
  Request -> X -> option string -> string -> traced (result (response V D)).

(** The four decorators written above [browse] and [compare]. They are
    defined in django and in olympia.files.decorators, not in this file:
    each is an arbitrary function from views to views. [file_view] and
    [compare_file_view] hand the view a viewer or a diff for the file ids
    of the URL. *)
Class ViewDecorators (V D : Type) := {
  apply_csrf_exempt : forall X, view V D X -> view V D X;
  apply_non_atomic_requests : forall X, view V D X -> view V D X;
  apply_file_view : view V D V -> view V D Z;
  apply_compare_file_view : view V D D -> view V D (Z * Z)
}.



Section RoutedViews.
Context {V D : Type}.
Context `{!FileViewer V} `{!DiffHelper V D}.
Context `{!Urls V D} `{!Translation} `{!Acl} `{!Forms}.
Context `{!ViewDecorators V D}.





End RoutedViews.

(** ** BrowseViewSet *)

(** The permission classes imported from [olympia.api.permissions];
    [AnyOf] combines the classes it is given. *)
Inductive permission :=
| AllowReviewer
| AllowReviewerUnlisted
| AllowAddonAuthor
| AnyOf (ps : list permission).

(** What the imported permission classes decide: on the request alone, and
    on the request and the object retrieved. *)
Class ApiPermissions := {
  has_permission : permission -> Request -> bool;
  has_object_permission : permission -> Request -> File -> bool
}.

(** A value bound in the class body. *)
Inductive class_value :=
| PermissionClasses (ps : list permission)
| SerializerClass (name : string).

(** The assignments of the body of [class BrowseViewSet], in order. *)
Definition BrowseViewSet_body : list (string * class_value) :=
  [("permission_classes",
    PermissionClasses [AnyOf [AllowReviewer; AllowReviewerUnlisted;
                              AllowAddonAuthor]]);
   ("permission_classes", PermissionClasses []);
   ("serializer_class", SerializerClass "AddonFileBrowseSerializer")].

(** The class namespace: the body is executed top to bottom, a later
    assignment to a name replaces an earlier one. *)
Definition class_namespace (body : list (string * class_value))
  : gmap string class_value :=
  foldl (fun ns kv => <[kv.1 := kv.2]> ns) ∅ body.

Definition BrowseViewSet : gmap string class_value :=
  class_namespace BrowseViewSet_body.

(** The class as it would be without the second assignment. *)
Definition BrowseViewSet_guarded : gmap string class_value :=
  class_namespace
    [("permission_classes",
      PermissionClasses [AnyOf [AllowReviewer; AllowReviewerUnlisted;
                                AllowAddonAuthor]]);
     ("serializer_class", SerializerClass "AddonFileBrowseSerializer")].

(** [self.permission_classes]. *)
Definition permission_classes (cls : gmap string class_value) : list permission :=
  match cls !! "permission_classes" with
  | Some (PermissionClasses ps) => ps
  | _ => []
  end.

Section ViewSet.
Context `{!ApiPermissions}.

(** [permission.has_permission(request, view)]; [AnyOf] asks each of its
    classes in turn. *)
Fixpoint permits (p : permission) (request : Request) : bool :=
  match p with
  | AnyOf ps => existsb (fun q => permits q request) ps
  | _ => has_permission p request
  end.

(** [permission.has_object_permission(request, view, obj)]. *)
Fixpoint permits_object (p : permission) (request : Request) (obj : File) : bool :=
  match p with
  | AnyOf ps => existsb (fun q => permits_object q request obj) ps
  | _ => has_object_permission p request obj
  end.

(** [get_queryset]: [File.objects.all()], unfiltered. *)
Definition get_queryset (objects : list File) : list File := objects.

(** Retrieval as the framework runs it for a viewset class: every
    permission class of the view is asked about the request, the object is
    looked up in the queryset, and every permission class is asked about
    the object. The first refusal denies the request. *)
Definition retrieve (cls : gmap string class_value) (objects : list File)
    (request : Request) (file_pk : Z) : result File :=
  if negb (forallb (fun p => permits p request) (permission_classes cls))
  then Raise PermissionDenied
  else
    match find (fun f => bool_decide (id f = file_pk)) (get_queryset objects) with
    | None => Raise Http404
    | Some obj =>
      if forallb (fun p => permits_object p request obj) (permission_classes cls)
      then Ok obj
      else Raise PermissionDenied
    end.

(** A request satisfies a permission class when the class accepts both the
    request and the object. *)
Definition satisfies (p : permission) (request : Request) (obj : File) : bool :=
  permits p request && permits_object p request obj.

End ViewSet.

(** ** Sample objects *)

Module Fixture.

(** A file viewer over a fixed table of extracted files. *)
Record SimpleViewer := mkViewer {
  sv_file : File;
  sv_name : string;
  sv_files : gmap string FileEntry;
  sv_selected : option string;
  sv_extracted : bool;
  sv_directory : bool;
  sv_binary : bool;
  sv_text : string
}.

Definition sv_select (key : option string) (v : SimpleViewer) : SimpleViewer :=
  mkViewer (sv_file v) (sv_name v) (sv_files v) key (sv_extracted v)
           (sv_directory v) (sv_binary v) (sv_text v).

Definition sv_default (v : SimpleViewer) (key : option string) : option string :=
  match key with
  | Some k => Some k
  | None =>
    if bool_decide (is_Some (sv_files v !! "manifest.json"))
    then Some "manifest.json" else None
  end.

Definition viewer_ops : FileViewer SimpleViewer := {|
  viewer_file := sv_file;
  viewer_addon v := addon (version (sv_file v));
  viewer_str := sv_name;
  is_extracted := sv_extracted;
  select := sv_select;
  get_selected_file := sv_default;
  get_files := sv_files;
  is_directory := sv_directory;
  is_binary := sv_binary;
  read_file := sv_text
|}.

Record SimpleDiff := mkDiff {
  sd_left : SimpleViewer;
  sd_right : SimpleViewer;
  sd_deleted : gmap string FileEntry;
  sd_diffable : bool
}.

Definition diff_ops : DiffHelper SimpleViewer SimpleDiff := {|
  left := sd_left;
  right := sd_right;
  diff_addon d := addon (version (sv_file (sd_left d)));
  diff_is_extracted d := sv_extracted (sd_left d) && sv_extracted (sd_right d);
  diff_select key d :=
    mkDiff (sv_select key (sd_left d)) (sv_select key (sd_right d))
           (sd_deleted d) (sd_diffable d);
  diff_get_files d := sv_files (sd_left d);
  diff_get_deleted_files := sd_deleted;
  is_diffable := sd_diffable;
  diff_read_file d := (sv_text (sd_left d), sv_text (sd_right d))
|}.

Definition urls : Urls SimpleViewer SimpleDiff := {|
  reverse name args := "/" +:+ name;
  urlparams url tok := url +:+ "?token=" +:+ tok
|}.

Definition translation : Translation := {| ugettext s := s |}.

(** User 1 reviews, user 2 owns the add-on, anybody else is a visitor. *)
Definition acl : Acl := {|
  is_reviewer request a := bool_decide (user request = 1);
  check_addon_ownership request a dev ignore_disabled :=
    bool_decide (user request = 2) && dev && ignore_disabled
|}.

(** A form is valid when its data names a left file; it compares with
    file 43 when the data names a right file. *)
Definition forms : Forms := {|
  FileCompareForm data a initial_left initial_right request :=
    match data with
    | None => mkForm false initial_left None
    | Some posted =>
      mkForm (bool_decide (is_Some (posted !! "left")))
             initial_left
             (if bool_decide (is_Some (posted !! "right"))
              then Some (mkFile 43 (version initial_left) false false "")
              else None)
    end
|}.

Definition uuid : Uuid := {| uuid4 n := "c0ffee" |}.

Definition api_permissions : ApiPermissions := {|
  has_permission p request :=
    match p with
    | AllowReviewer => bool_decide (user request = 1)
    | AllowReviewerUnlisted => bool_decide (user request = 3)
    | AllowAddonAuthor => bool_decide (user request = 2)
    | AnyOf _ => false
    end;
  has_object_permission p request obj :=
    match p with
    | AllowReviewer => bool_decide (user request = 1)
    | AllowReviewerUnlisted => bool_decide (user request = 3)
    | AllowAddonAuthor => bool_decide (user request = 2)
    | AnyOf _ => false
    end
|}.

Definition an_addon : Addon := mkAddon 7 "my-addon".
Definition a_version : Version := mkVersion 11 an_addon.
Definition a_file : File := mkFile 42 a_version true true "{}".
Definition other_file : File := mkFile 43 a_version false false "".

Definition manifest : FileEntry :=
  mkFileEntry "/tmp/42/manifest.json" "application/json".

Definition a_viewer : SimpleViewer :=
  mkViewer a_file "42" {["manifest.json" := manifest]} None true false false
           "{ }".

Definition other_viewer : SimpleViewer :=
  mkViewer other_file "43" {["manifest.json" := manifest]} None false false
           false "{  }".

Definition a_diff : SimpleDiff := mkDiff a_viewer other_viewer ∅ true.

(** Requests: a visitor's GET, a visitor's empty POST, a visitor's POST
    naming two files, a reviewer's GET. *)
Definition visitor_get : Request :=
  mkRequest "GET" "/files/browse/42" ∅ ∅ 0.
Definition visitor_post : Request :=
  mkRequest "POST" "/files/browse/42" ∅ ∅ 0.
Definition visitor_post_both : Request :=
  mkRequest "POST" "/files/browse/42" ∅
            (<["right" := "43"]> {["left" := "42"]}) 0.
Definition reviewer_get : Request :=
  mkRequest "GET" "/files/browse/42" ∅ ∅ 1.

Definition invalid_form : Form := mkForm false a_file None.
Definition valid_form : Form := mkForm true a_file (Some other_file).

(** The viewers of the files on record. *)
Definition viewer_by_id (file_id : Z) : option SimpleViewer :=
  if bool_decide (file_id = 42) then Some a_viewer
  else if bool_decide (file_id = 43) then Some other_viewer
  else None.

(** Decorators that evaluate neither condition function: [file_view] and
    [compare_file_view] look the viewers up and answer 404 for an unknown
    file, the other two return the view as it is. *)
Definition decorators : ViewDecorators SimpleViewer SimpleDiff := {|
  apply_csrf_exempt X v := v;
  apply_non_atomic_requests X v := v;
  apply_file_view v request file_id key type :=
    match viewer_by_id file_id with
    | Some viewer => v request viewer key type
    | None => ([], Raise Http404)
    end;
  apply_compare_file_view v request ids key type :=
    match viewer_by_id ids.1, viewer_by_id ids.2 with
    | Some l, Some r => v request (mkDiff l r ∅ true) key type
    | _, _ => ([], Raise Http404)
    end
|}.

Definition empty_cache : Cache := mkCache ∅ ∅ 0.
Definition pending_cache : Cache :=
  mkCache {["file-viewer:42" := "extracting"]} ∅ 0.

End Fixture.

(** * Properties *)

(** Lookups in dicts built by [setitem], [update] and [dict] over literal
    keys. *)
Ltac dict_lookup :=
  cbn [update dict foldl fst snd];
  unfold setitem;
  repeat (rewrite lookup_insert_eq || (rewrite lookup_insert_ne by done));
  rewrite ?lookup_empty.

Section Properties.
Context {V D : Type}.
Context `{!FileViewer V} `{!DiffHelper V D}.
Context `{!Urls V D} `{!Translation} `{!Acl} `{!Forms} `{!Uuid}.

Local Abbreviation value := (value V D).
Local Abbreviation response := (response V D).

(** ** setup_viewer *)

Lemma setup_viewer_initial_keys file_obj :
  let initial : gmap string value := setup_viewer_initial file_obj in
  initial !! "status" = Some (VBool false)
  ∧ initial !! "selected" = Some (VDict [])
  ∧ initial !! "validate_url" = Some (VStr "")
  ∧ initial !! "automated_signing" = None
  ∧ initial !! "validation_data" = None
  ∧ initial !! "file_link" = None.
Proof. unfold setup_viewer_initial. repeat split; by dict_lookup. Qed.

Lemma setup_viewer_other_keys request file_obj k :
  k ∉ setup_viewer_updates →
  (setup_viewer request file_obj : gmap string value) !! k
  = setup_viewer_initial file_obj !! k.
Proof.
  unfold setup_viewer_updates. rewrite !not_elem_of_cons.
  intros (Hk1 & Hk2 & Hk3 & Hk4 & _).
  unfold setup_viewer, setitem.
  repeat match goal with
         | |- context [if ?b then _ else _] => destruct b
         end;
    by rewrite ?lookup_insert_ne by done.
Qed.

(** C10. [setup_viewer] starts from a dict with 'status' False,
    'selected' {} and 'validate_url' '', and leaves every key but
    'validate_url', 'automated_signing', 'validation_data' and 'file_link'
    as it was there. 'validate_url' is the devhub.json_file_validation URL
    and 'automated_signing' is present exactly when the requester is a
    reviewer of the add-on or passes the ownership check with dev=True and
    ignore_disabled=True; otherwise 'validate_url' stays '' and
    'automated_signing' is absent. 'validation_data' is present exactly when
    in addition the file has been validated. 'file_link' is the
    'Back to review' link to reviewers.review for a reviewer and the
    'Back to add-on' link to addons.detail for everyone else. *)
Theorem setup_viewer_gates_privileged_data (request : Request) (file_obj : File) :
  let a := addon (version file_obj) in
  let initial : gmap string value := setup_viewer_initial file_obj in
  let data : gmap string value := setup_viewer request file_obj in
  let privileged :=
    is_reviewer request a || check_addon_ownership request a true true in
  (initial !! "status" = Some (VBool false)
   ∧ initial !! "selected" = Some (VDict [])
   ∧ initial !! "validate_url" = Some (VStr ""))
  ∧ (∀ k, k ∉ setup_viewer_updates → data !! k = initial !! k)
  ∧ data !! "status" = Some (VBool false)
  ∧ data !! "selected" = Some (VDict [])
  ∧ data !! "validate_url" =
      Some (VStr (if privileged
                  then reverse "devhub.json_file_validation"
                         [VStr (slug a); VInt (id file_obj)]
                  else ""))
  ∧ (data !! "validate_url" ≠ Some (VStr "") → privileged = true)
  ∧ data !! "automated_signing" =
      (if privileged then Some (VBool (automated_signing file_obj)) else None)
  ∧ data !! "validation_data" =
      (if privileged && has_been_validated file_obj
       then Some (VStr (processed_validation file_obj)) else None)
  ∧ data !! "file_link" =
      Some (if is_reviewer request a
            then VDict [("text", VStr (ugettext "Back to review"));
                        ("url", VStr (reverse "reviewers.review" [VStr (slug a)]))]
            else VDict [("text", VStr (ugettext "Back to add-on"));
                        ("url", VStr (reverse "addons.detail" [VInt (pk a)]))]).
Proof.
  intros a initial data privileged.
  destruct (setup_viewer_initial_keys file_obj) as (Hs & Hsel & Hv & Ha & Hd & Hl).
  split; [by repeat split|].
  split; [intros k Hk; by apply setup_viewer_other_keys|].
  split.
  { subst data. rewrite setup_viewer_other_keys; [done|].
    unfold setup_viewer_updates. rewrite !not_elem_of_cons.
    repeat split; try done. apply not_elem_of_nil. }
  split.
  { subst data. rewrite setup_viewer_other_keys; [done|].
    unfold setup_viewer_updates. rewrite !not_elem_of_cons.
    repeat split; try done. apply not_elem_of_nil. }
  subst data privileged a. unfold setup_viewer, setitem.
  destruct (is_reviewer request (addon (version file_obj))) eqn:Hrev;
    destruct (check_addon_ownership request (addon (version file_obj)) true true)
      eqn:Hown;
    destruct (has_been_validated file_obj) eqn:Hval; cbn [orb andb];
    repeat split;
    repeat (rewrite lookup_insert_eq || (rewrite lookup_insert_ne by done));
    try done.
Qed.

(** ** poll and compare_poll *)

Local Abbreviation poll := (poll (D:=D)).

(** [poll] in closed form. *)
Lemma poll_eq request viewer c :
  poll request viewer c =
  (dict [("status", VBool (is_extracted viewer));
         ("msg", VList [str_or_none (messages c !! message_key viewer)])],
   mkCache (delete (message_key viewer) (messages c)) (tokens c) (drawn c)).
Proof. reflexivity. Qed.

(** [compare_poll] in closed form: the right message is read after the left
    one has been deleted. *)
Lemma compare_poll_eq request diff c :
  let kl := message_key (left diff) in
  let kr := message_key (right diff) in
  let ml := messages c !! kl in
  let mr := delete kl (messages c) !! kr in
  compare_poll request diff c =
  (dict [("status", VBool (diff_is_extracted diff));
         ("msg", VList (map str_or_none (List.filter truthy [ml; mr])))],
   mkCache (delete kr (delete kl (messages c))) (tokens c) (drawn c)).
Proof.
  intros kl kr ml mr. subst kl kr ml mr.
  unfold compare_poll, message_key. cbn [foldl].
  unfold compare_poll_step, Message_get. cbn [List.filter].
  destruct (truthy (messages c !! _)); cbn [messages tokens drawn];
    destruct (truthy (delete _ (messages c) !! _)); reflexivity.
Qed.

(** C4. [poll] returns a dict whose 'status' is [viewer.is_extracted()],
    and [compare_poll] a dict whose 'status' is [diff.is_extracted()],
    whatever the request and the cache. *)
Theorem polls_report_extraction_status
    (request : Request) (viewer : V) (diff : D) (c : Cache) :
  (poll request viewer c).1 !! "status" = Some (VBool (is_extracted viewer))
  ∧ (compare_poll request diff c).1 !! "status"
    = Some (VBool (diff_is_extracted diff)).
Proof.
  split.
  - rewrite poll_eq. cbn [fst]. by dict_lookup.
  - rewrite compare_poll_eq. cbn [fst]. by dict_lookup.
Qed.

Lemma truthy_Some (m : option string) :
  truthy m = true → ∃ s, m = Some s ∧ s ≠ "".
Proof.
  destruct m as [s|]; [|done]. cbn. intros Hs. exists s. split; [done|].
  intros ->. by rewrite bool_decide_eq_true_2 in Hs.
Qed.

(** Every element the loop of [compare_poll] keeps is a message that was
    pending for one of the two sides, and so is not [None]. *)
Lemma kept_messages_pending (msgs : gmap string string) (kl kr : string) :
  Forall (fun v : value =>
            v ≠ VNone
            ∧ ∃ s, v = VStr s ∧ (msgs !! kl = Some s ∨ msgs !! kr = Some s))
         (map str_or_none
              (List.filter truthy [msgs !! kl; delete kl msgs !! kr])).
Proof.
  assert (∀ m, truthy m = true →
               m = msgs !! kl ∨ m = delete kl msgs !! kr →
               (str_or_none m : value) ≠ VNone
               ∧ ∃ s, (str_or_none m : value) = VStr s
                      ∧ (msgs !! kl = Some s ∨ msgs !! kr = Some s)) as Hone.
  { intros m (s & -> & _)%truthy_Some Hm. cbn. split; [done|].
    exists s. split; [done|]. destruct Hm as [Hm|Hm]; [by left|right].
    symmetry in Hm. by apply lookup_delete_Some in Hm as [_ Hm]. }
  cbn [List.filter].
  destruct (truthy (msgs !! kl)) eqn:Hl;
    destruct (truthy (delete kl msgs !! kr)) eqn:Hr; cbn [map];
    repeat constructor; apply Hone; auto.
Qed.

(** C9. [poll] returns 'msg' as a list of exactly one element: the message
    pending for the viewer, [None] when there is none; the message is
    deleted by the retrieval, so polling again returns [None]. [compare_poll]
    returns 'msg' as a list of at most two elements, each a message (never
    [None]) that was pending for [diff.left] or [diff.right]: the ones the
    loop reads that are true values; the list is empty when neither side
    has a pending message, both messages are deleted by the retrieval, and
    polling again returns the empty list. *)
Theorem pending_messages_delivered_once
    (request : Request) (viewer : V) (diff : D) (c : Cache) :
  let k := message_key viewer in
  let kl := message_key (left diff) in
  let kr := message_key (right diff) in
  let polled := poll request viewer c in
  let compared := compare_poll request diff c in
  (polled.1 !! "msg" = Some (VList [str_or_none (messages c !! k)])
   ∧ (messages c !! k = None → polled.1 !! "msg" = Some (VList [VNone]))
   ∧ messages polled.2 !! k = None
   ∧ (poll request viewer polled.2).1 !! "msg" = Some (VList [VNone]))
  ∧ ∃ msgs : list value,
      compared.1 !! "msg" = Some (VList msgs)
      ∧ msgs = map str_or_none
                 (List.filter truthy
                    [messages c !! kl; delete kl (messages c) !! kr])
      ∧ (length msgs ≤ 2)%nat
      ∧ Forall (fun v : value =>
                  v ≠ VNone
                  ∧ ∃ s, v = VStr s
                         ∧ (messages c !! kl = Some s ∨ messages c !! kr = Some s))
               msgs
      ∧ (messages c !! kl = None → messages c !! kr = None → msgs = [])
      ∧ messages compared.2 !! kl = None
      ∧ messages compared.2 !! kr = None
      ∧ (compare_poll request diff compared.2).1 !! "msg" = Some (VList []).
Proof.
  intros k kl kr polled compared. split.
  - subst polled. rewrite !poll_eq. cbn [fst snd messages]. fold k.
    rewrite lookup_delete_eq. repeat split; try by dict_lookup.
    intros Hk. dict_lookup. by rewrite Hk.
  - subst compared. rewrite !compare_poll_eq. cbn [fst snd messages].
    fold kl kr. eexists. split; [by dict_lookup|]. split; [done|].
    split.
    { rewrite length_map. cbn [List.filter].
      repeat match goal with
             | |- context [if ?b then _ else _] => destruct b
             end; cbn; lia. }
    split; [apply kept_messages_pending|].
    split.
    { intros Hl Hr. rewrite Hl.
      assert (delete kl (messages c) !! kr = None) as ->; [|done].
      apply lookup_delete_None. by right. }
    assert (delete kr (delete kl (messages c)) !! kl = None) as Hdl.
    { apply lookup_delete_None. right. apply lookup_delete_eq. }
    assert (delete kr (delete kl (messages c)) !! kr = None) as Hdr.
    { apply lookup_delete_eq. }
    repeat split; [done..|].
    dict_lookup. rewrite Hdl.
    assert (delete kl (delete kr (delete kl (messages c))) !! kr = None) as ->;
      [|done].
    apply lookup_delete_None. by right.
Qed.

(** ** check_compare_form *)

Lemma check_compare_form_non_post request form :
  method request ≠ "POST" → check_compare_form request form = None.
Proof. intros Hm. unfold check_compare_form. by rewrite bool_decide_eq_false_2. Qed.

Lemma check_compare_form_post request form :
  method request = "POST" →
  ∃ url, check_compare_form request form = Some (Redirect url).
Proof.
  intros Hm. unfold check_compare_form. rewrite bool_decide_eq_true_2; eauto.
Qed.

(** C6. On a POST with a valid form, [check_compare_form] redirects to the
    files.compare URL of (left, right) when a right file is given and to
    the files.list URL of left when none is; on a POST with an invalid form
    it redirects to the request path; on any other method it returns
    [None]. *)
Theorem check_compare_form_redirects (request : Request) (form : Form) :
  (method request = "POST" → is_valid form = true →
   ∀ r, cleaned_right form = Some r →
        check_compare_form request form =
        Some (Redirect (reverse "files.compare"
                          [VFile (cleaned_left form); VFile r])))
  ∧ (method request = "POST" → is_valid form = true →
     cleaned_right form = None →
     check_compare_form request form =
     Some (Redirect (reverse "files.list" [VFile (cleaned_left form)])))
  ∧ (method request = "POST" → is_valid form = false →
     check_compare_form request form = Some (Redirect (path request)))
  ∧ (method request ≠ "POST" → check_compare_form request form = None).
Proof.
  repeat split.
  - intros Hm Hv r Hr. unfold check_compare_form.
    by rewrite bool_decide_eq_true_2, Hv, Hr.
  - intros Hm Hv Hr. unfold check_compare_form.
    by rewrite bool_decide_eq_true_2, Hv, Hr.
  - intros Hm Hv. unfold check_compare_form.
    by rewrite bool_decide_eq_true_2, Hv.
  - apply check_compare_form_non_post.
Qed.

(** ** browse and compare *)

Lemma setup_viewer_lacks request file_obj k :
  k ∉ setup_viewer_keys →
  (setup_viewer request file_obj : gmap string value) !! k = None.
Proof.
  unfold setup_viewer_keys. rewrite !not_elem_of_cons.
  intros (? & ? & ? & ? & ? & ? & ? & ? & ? & _).
  rewrite setup_viewer_other_keys.
  - unfold setup_viewer_initial. by dict_lookup.
  - unfold setup_viewer_updates. rewrite !not_elem_of_cons.
    repeat split; try done. apply not_elem_of_nil.
Qed.

(** A POST never gets past the compare form. *)
Lemma browse_post request viewer key type :
  method request = "POST" →
  ∃ url, browse request viewer key type = Ok (Redirect url).
Proof.
  intros Hm. unfold browse.
  edestruct check_compare_form_post as [url ->]; eauto.
Qed.

Lemma compare_post request diff key type :
  method request = "POST" →
  ∃ url, compare request diff key type = Ok (Redirect url).
Proof.
  intros Hm. unfold compare.
  edestruct check_compare_form_post as [url ->]; eauto.
Qed.

(** Past the compare form, [browse] raises on an unknown key and renders
    otherwise. *)
Lemma browse_non_post request viewer key type :
  method request ≠ "POST" →
  (key_in (browse_key viewer key) (get_files (browse_viewer viewer key)) = false
   ∧ browse request viewer key type = Raise Http404)
  ∨ (key_in (browse_key viewer key) (get_files (browse_viewer viewer key)) = true
     ∧ ∃ data, browse request viewer key type
               = Ok (Render (template_for type) data)
       ∧ data !! "content" =
         if negb (is_directory (browse_viewer viewer key))
            && negb (is_binary (browse_viewer viewer key))
         then Some (VStr (read_file (browse_viewer viewer key)))
         else None).
Proof.
  intros Hm. unfold browse, browse_key, browse_viewer.
  rewrite check_compare_form_non_post by done.
  destruct (key_in _ _); cbn [negb]; [right | by left].
  split; [done|]. eexists. split; [reflexivity|].
  destruct (negb (is_directory _) && negb (is_binary _)).
  - unfold setitem. by rewrite lookup_insert_eq.
  - dict_lookup. apply setup_viewer_lacks.
    unfold setup_viewer_keys. rewrite !not_elem_of_cons.
    repeat split; try done. apply not_elem_of_nil.
Qed.

Lemma compare_non_post request diff key type :
  method request ≠ "POST" →
  (key_in (compare_key diff key) (diff_get_files diff) = false
   ∧ key_in (compare_key diff key) (diff_get_deleted_files diff) = false
   ∧ compare request diff key type = Raise Http404)
  ∨ ((key_in (compare_key diff key) (diff_get_files diff) = true
      ∨ key_in (compare_key diff key) (diff_get_deleted_files diff) = true)
     ∧ ∃ data, compare request diff key type
               = Ok (Render (template_for type) data)
       ∧ data !! "left" =
         (if is_diffable (compare_diff diff key)
          then Some (VStr (diff_read_file (compare_diff diff key)).1)
          else None)
       ∧ data !! "right" =
         (if is_diffable (compare_diff diff key)
          then Some (VStr (diff_read_file (compare_diff diff key)).2)
          else None)).
Proof.
  intros Hm. unfold compare, compare_diff, compare_key.
  rewrite check_compare_form_non_post by done.
  assert (∀ k, k = "left" ∨ k = "right" → k ∉ setup_viewer_keys) as Hlacks.
  { intros k [-> | ->]; unfold setup_viewer_keys; rewrite !not_elem_of_cons;
      repeat split; try done; apply not_elem_of_nil. }
  destruct (key_in _ (diff_get_files diff)) eqn:Hf;
    destruct (key_in _ (diff_get_deleted_files diff)) eqn:Hd;
    cbn [negb andb]; [right; split; [by left|] | right; split; [by left|]
                      | right; split; [by right|] | by left].
  all: eexists; split; [reflexivity|].
  all: destruct (is_diffable _); [destruct (diff_read_file _) as [l r]|].
  all: split; dict_lookup; try done; apply setup_viewer_lacks, Hlacks; auto.
Qed.

(** What a rendering [browse] has put under 'content'. *)
Lemma browse_render request viewer key type tmpl data :
  browse request viewer key type = Ok (Render tmpl data) →
  method request ≠ "POST"
  ∧ key_in (browse_key viewer key) (get_files (browse_viewer viewer key)) = true
  ∧ tmpl = template_for type
  ∧ data !! "content" =
    if negb (is_directory (browse_viewer viewer key))
       && negb (is_binary (browse_viewer viewer key))
    then Some (VStr (read_file (browse_viewer viewer key)))
    else None.
Proof.
  intros Hb. destruct (decide (method request = "POST")) as [Hm|Hm].
  - destruct (browse_post request viewer key type Hm) as [url Hurl]. congruence.
  - destruct (browse_non_post request viewer key type Hm)
      as [[_ Hr] | (Hin & data' & Hr & Hc)]; [congruence|].
    rewrite Hb in Hr. by simplify_eq.
Qed.

(** What a rendering [compare] has put under 'left' and 'right'. *)
Lemma compare_render request diff key type tmpl data :
  compare request diff key type = Ok (Render tmpl data) →
  method request ≠ "POST"
  ∧ (key_in (compare_key diff key) (diff_get_files diff) = true
     ∨ key_in (compare_key diff key) (diff_get_deleted_files diff) = true)
  ∧ tmpl = template_for type
  ∧ data !! "left" =
    (if is_diffable (compare_diff diff key)
     then Some (VStr (diff_read_file (compare_diff diff key)).1) else None)
  ∧ data !! "right" =
    (if is_diffable (compare_diff diff key)
     then Some (VStr (diff_read_file (compare_diff diff key)).2) else None).
Proof.
  intros Hb. destruct (decide (method request = "POST")) as [Hm|Hm].
  - destruct (compare_post request diff key type Hm) as [url Hurl]. congruence.
  - destruct (compare_non_post request diff key type Hm)
      as [(_ & _ & Hr) | (Hin & data' & Hr & Hc)]; [congruence|].
    rewrite Hb in Hr. by simplify_eq.
Qed.

(** ** serve *)

Local Abbreviation serve := (serve (D:=D)).

Lemma serve_eq request viewer key :
  serve request viewer key =
  match get_files viewer !! key with
  | None => Raise Http404
  | Some obj => Ok (SendFile (full obj) (mimetype obj))
  end.
Proof. reflexivity. Qed.

(** C5 (as the code has it). A request that gets past the compare form,
    that is any request whose method is not POST, makes [browse] raise
    Http404 exactly when the selected key is not in [viewer.get_files()],
    and makes [compare] raise Http404 exactly when the selected key is in
    neither [diff.get_files()] nor [diff.get_deleted_files()]; a POST is
    answered by the redirect of the compare form and raises nothing.
    [serve] raises Http404 exactly when the key is absent from
    [viewer.get_files()], and otherwise sends the file at [obj['full']]
    with content type [obj['mimetype']]. *)
Theorem unknown_keys_raise_404
    (request : Request) (viewer : V) (diff : D)
    (key : option string) (type : string) (served : string) :
  (method request ≠ "POST" →
   (browse request viewer key type = Raise Http404
    ↔ key_in (browse_key viewer key) (get_files (browse_viewer viewer key))
      = false))
  ∧ (method request ≠ "POST" →
     (compare request diff key type = Raise Http404
      ↔ key_in (compare_key diff key) (diff_get_files diff) = false
        ∧ key_in (compare_key diff key) (diff_get_deleted_files diff) = false))
  ∧ (method request = "POST" →
     browse request viewer key type ≠ Raise Http404
     ∧ compare request diff key type ≠ Raise Http404)
  ∧ (serve request viewer served = Raise Http404
     ↔ get_files viewer !! served = None)
  ∧ (∀ obj, get_files viewer !! served = Some obj →
            serve request viewer served
            = Ok (SendFile (full obj) (mimetype obj))).
Proof.
  split; [|split; [|split; [|split]]].
  - intros Hm.
    destruct (browse_non_post request viewer key type Hm)
      as [[Hin Hr] | (Hin & data & Hr & _)]; rewrite Hr, Hin; by split.
  - intros Hm.
    destruct (compare_non_post request diff key type Hm)
      as [(Hf & Hd & Hr) | ([Hin|Hin] & data & Hr & _)]; rewrite Hr.
    + by split.
    + rewrite Hin. split; [done | by intros [? _]].
    + rewrite Hin. split; [done | by intros [_ ?]].
  - intros Hm.
    destruct (browse_post request viewer key type Hm) as [u1 ->].
    destruct (compare_post request diff key type Hm) as [u2 ->]. done.
  - rewrite serve_eq. by destruct (get_files viewer !! served).
  - intros obj Hobj. by rewrite serve_eq, Hobj.
Qed.

(** C7. For every request that is not a POST and whose selected key is
    known, [browse] renders, and its template data has 'content' exactly
    when the selected file is neither a directory nor binary, and then it
    is the text [viewer.read_file()] returns; under the same conditions
    [compare] renders, and its template data has 'left' and 'right'
    exactly when [diff.is_diffable()] holds, and then they are the two
    sides [diff.read_file()] returns. No other request makes them render:
    the same holds of every rendering of [browse] and of [compare]. *)
Theorem content_included_by_file_kind
    (request : Request) (viewer : V) (diff : D)
    (key : option string) (type : string) :
  let file := browse_viewer viewer key in
  let sides := compare_diff diff key in
  let content_by_kind (data : gmap string value) :=
    (is_Some (data !! "content")
     ↔ is_directory file = false ∧ is_binary file = false)
    ∧ (is_directory file = false → is_binary file = false →
       data !! "content" = Some (VStr (read_file file)))
    ∧ (is_Some (data !! "content") →
       data !! "content" = Some (VStr (read_file file))) in
  let sides_by_diffable (data : gmap string value) :=
    (is_Some (data !! "left") ↔ is_diffable sides = true)
    ∧ (is_Some (data !! "right") ↔ is_diffable sides = true)
    ∧ (is_diffable sides = true →
       data !! "left" = Some (VStr (diff_read_file sides).1)
       ∧ data !! "right" = Some (VStr (diff_read_file sides).2)) in
  (method request ≠ "POST" →
   key_in (browse_key viewer key) (get_files file) = true →
   ∃ data, browse request viewer key type
           = Ok (Render (template_for type) data)
           ∧ content_by_kind data)
  ∧ (method request ≠ "POST" →
     key_in (compare_key diff key) (diff_get_files diff) = true
     ∨ key_in (compare_key diff key) (diff_get_deleted_files diff) = true →
     ∃ data, compare request diff key type
             = Ok (Render (template_for type) data)
             ∧ sides_by_diffable data)
  ∧ (∀ tmpl data,
       browse request viewer key type = Ok (Render tmpl data) →
       content_by_kind data)
  ∧ (∀ tmpl data,
       compare request diff key type = Ok (Render tmpl data) →
       sides_by_diffable data).
Proof.
  intros file sides content_by_kind sides_by_diffable.
  assert (∀ data : gmap string value,
            data !! "content" =
            (if negb (is_directory file) && negb (is_binary file)
             then Some (VStr (read_file file)) else None) →
            content_by_kind data) as Hcontent.
  { intros data Hc. unfold content_by_kind. rewrite Hc.
    destruct (is_directory file), (is_binary file); cbn [negb andb];
      repeat split; try done; by intros [? ?]. }
  assert (∀ data : gmap string value,
            data !! "left" =
            (if is_diffable sides
             then Some (VStr (diff_read_file sides).1) else None) →
            data !! "right" =
            (if is_diffable sides
             then Some (VStr (diff_read_file sides).2) else None) →
            sides_by_diffable data) as Hsides.
  { intros data Hl Hr. unfold sides_by_diffable. rewrite Hl, Hr.
    destruct (is_diffable sides); repeat split; try done; by intros [? ?]. }
  split; [|split; [|split]].
  - intros Hm Hin.
    destruct (browse_non_post request viewer key type Hm)
      as [[Hout _] | (_ & data & Hr & Hc)]; [subst file; congruence|].
    exists data. split; [done|]. by apply Hcontent.
  - intros Hm Hin.
    destruct (compare_non_post request diff key type Hm)
      as [(Hf & Hd & _) | (_ & data & Hr & Hl & Hrt)].
    + destruct Hin; congruence.
    + exists data. split; [done|]. by apply Hsides.
  - intros tmpl data (_ & _ & _ & Hc)%browse_render. by apply Hcontent.
  - intros tmpl data (_ & _ & _ & Hl & Hr)%compare_render. by apply Hsides.
Qed.

(** C8 (as the code has it). Whenever [browse] or [compare] renders, the
    template is 'files/content.html' when the type argument is 'fragment'
    and 'files/viewer.html' for every other type value; they render for
    every request that is not a POST and whose selected key is known. A
    POST is answered by a redirect instead. [poll] and [compare_poll]
    return their dict through [json_view]. *)
Theorem views_render_or_return_json
    (request : Request) (viewer : V) (diff : D)
    (key : option string) (type : string) :
  (∀ tmpl data,
     browse request viewer key type = Ok (Render tmpl data)
     ∨ compare request diff key type = Ok (Render tmpl data) →
     (type = "fragment" → tmpl = "files/content.html")
     ∧ (type ≠ "fragment" → tmpl = "files/viewer.html"))
  ∧ (method request ≠ "POST" →
     key_in (browse_key viewer key) (get_files (browse_viewer viewer key))
     = true →
     ∃ data, browse request viewer key type
             = Ok (Render (template_for type) data))
  ∧ (method request ≠ "POST" →
     key_in (compare_key diff key) (diff_get_files diff) = true
     ∨ key_in (compare_key diff key) (diff_get_deleted_files diff) = true →
     ∃ data, compare request diff key type
             = Ok (Render (template_for type) data))
  ∧ (method request = "POST" →
     ∃ url1 url2, browse request viewer key type = Ok (Redirect url1)
                  ∧ compare request diff key type = Ok (Redirect url2))
  ∧ json_view ∈ poll_decorators
  ∧ json_view ∈ compare_poll_decorators.
Proof.
  split; [|split; [|split; [|split; [|split]]]].
  - intros tmpl data Hr.
    assert (tmpl = template_for type) as ->.
    { destruct Hr as [Hr|Hr].
      - by apply browse_render in Hr as (_ & _ & -> & _).
      - by apply compare_render in Hr as (_ & _ & -> & _). }
    unfold template_for. split.
    + intros ->. by rewrite bool_decide_eq_true_2.
    + intros Hne. by rewrite bool_decide_eq_false_2.
  - intros Hm Hin.
    destruct (browse_non_post request viewer key type Hm)
      as [[Hout _] | (_ & data & Hr & _)]; [congruence | eauto].
  - intros Hm Hin.
    destruct (compare_non_post request diff key type Hm)
      as [(Hf & Hd & _) | (_ & data & Hr & _)]; [|eauto].
    destruct Hin; congruence.
  - intros Hm.
    destruct (browse_post request viewer key type Hm) as [u1 ->].
    destruct (compare_post request diff key type Hm) as [u2 ->]. eauto.
  - unfold poll_decorators. rewrite !elem_of_cons. auto.
  - unfold compare_poll_decorators. rewrite !elem_of_cons. auto.
Qed.

(** ** redirect and the token gate of serve *)

Local Abbreviation redirect := (redirect (D:=D)).
Local Abbreviation serve_view := (serve_view (D:=D)).

Lemma serve_view_eq request viewer key c :
  serve_view request viewer key c =
  match GET request !! "token" with
  | None => Raise PermissionDenied
  | Some t =>
    if Token_valid t (id (viewer_file viewer), key) c
    then serve request viewer key
    else Raise PermissionDenied
  end.
Proof. reflexivity. Qed.

Lemma redirect_eq request viewer key c :
  redirect request viewer key c =
  (Redirect (urlparams (reverse "files.serve" [VViewer viewer; VStr key])
                       (uuid4 (drawn c))),
   mkCache (messages c)
           (<[uuid4 (drawn c) := (id (viewer_file viewer), key)]> (tokens c))
           (S (drawn c))).
Proof. reflexivity. Qed.

(** A request served through the gate carries a token saved for the file
    and key. *)
Lemma serve_view_token request viewer key c :
  (∃ t, GET request !! "token" = Some t
        ∧ tokens c !! t = Some (id (viewer_file viewer), key)
        ∧ serve_view request viewer key c = serve request viewer key)
  ∨ ((∀ t, GET request !! "token" = Some t →
           tokens c !! t ≠ Some (id (viewer_file viewer), key))
     ∧ serve_view request viewer key c = Raise PermissionDenied).
Proof.
  rewrite serve_view_eq. unfold Token_valid.
  destruct (GET request !! "token") as [t|]; [|by right].
  case_bool_decide as Ht; [left; eauto | right].
  split; [|done]. intros t' Ht'. by simplify_eq.
Qed.

(** C3. [redirect] creates a [Token] whose data is the pair
    [(viewer.file.id, key)], saves it, and redirects to the files.serve URL
    of (viewer, key) with the token string as the [token] parameter.
    [serve] is decorated with [file_view_token]: it sends a file only for a
    request that carries a token saved for that file and key, any other
    request is denied, and a request carrying the token [redirect] has just
    saved reaches [serve]. *)
Theorem file_serving_is_token_gated
    (request : Request) (viewer : V) (key : string) (c : Cache) :
  let pair := (id (viewer_file viewer), key) in
  let issued := redirect request viewer key c in
  (∃ new : Token,
     data new = pair
     ∧ tokens issued.2 !! token new = Some (data new)
     ∧ issued.1 =
       Redirect (urlparams (reverse "files.serve" [VViewer viewer; VStr key])
                           (token new)))
  ∧ file_view_token ∈ serve_decorators
  ∧ (∀ request' c' file_path content_type,
       serve_view request' viewer key c' = Ok (SendFile file_path content_type) →
       ∃ t, GET request' !! "token" = Some t ∧ tokens c' !! t = Some pair)
  ∧ (∀ request' c',
       (∀ t, GET request' !! "token" = Some t → tokens c' !! t ≠ Some pair) →
       serve_view request' viewer key c' = Raise PermissionDenied)
  ∧ (∀ request',
       GET request' !! "token" = Some (uuid4 (drawn c)) →
       serve_view request' viewer key issued.2 = serve request' viewer key).
Proof.
  intros pair issued. subst pair issued. rewrite redirect_eq. cbn [fst snd].
  split; [|split; [|split; [|split]]].
  - exists (mkToken (uuid4 (drawn c)) (id (viewer_file viewer), key)).
    cbn [data token tokens]. by rewrite lookup_insert_eq.
  - unfold serve_decorators. rewrite !elem_of_cons. auto.
  - intros request' c' fp ct Hs.
    destruct (serve_view_token request' viewer key c')
      as [(t & Ht & Hv & _) | [_ Hd]]; [eauto | congruence].
  - intros request' c' Hno.
    destruct (serve_view_token request' viewer key c')
      as [(t & Ht & Hv & _) | [_ Hd]]; [|done].
    by destruct (Hno t Ht).
  - intros request' Ht.
    destruct (serve_view_token request' viewer key
                (mkCache (messages c)
                   (<[uuid4 (drawn c) := (id (viewer_file viewer), key)]>
                      (tokens c)) (S (drawn c))))
      as [(t & _ & _ & Hs) | [Hno _]]; [done|].
    destruct (Hno _ Ht). cbn [tokens]. by rewrite lookup_insert_eq.
Qed.

End Properties.

(** ** Decorators of browse and compare *)

Section RoutedViewsProperties.
Context {V D : Type}.
Context `{!FileViewer V} `{!DiffHelper V D}.
Context `{!Urls V D} `{!Translation} `{!Acl} `{!Forms}.
Context `{!ViewDecorators V D}.




End RoutedViewsProperties.

(** ** BrowseViewSet *)

Section ViewSetProperties.
Context `{!ApiPermissions}.

(** The second assignment to [permission_classes] is the one in force. *)
Lemma BrowseViewSet_permission_classes :
  permission_classes BrowseViewSet = [].
Proof. reflexivity. Qed.

(** With the first assignment in force, only requests satisfying one of
    the three classes on the request and on the object are served. *)
Lemma BrowseViewSet_guarded_retrieve objects request file_pk obj :
  retrieve BrowseViewSet_guarded objects request file_pk = Ok obj →
  existsb (fun p => permits p request)
          [AllowReviewer; AllowReviewerUnlisted; AllowAddonAuthor] = true
  ∧ existsb (fun p => permits_object p request obj)
            [AllowReviewer; AllowReviewerUnlisted; AllowAddonAuthor] = true.
Proof.
  unfold retrieve.
  assert (permission_classes BrowseViewSet_guarded
          = [AnyOf [AllowReviewer; AllowReviewerUnlisted; AllowAddonAuthor]])
    as -> by reflexivity.
  cbn [forallb permits permits_object].
  rewrite !andb_true_r.
  destruct (existsb _ _) eqn:Hp; cbn [negb]; [|done].
  destruct (find _ _) as [o|]; [|done].
  destruct (existsb (λ q, permits_object q request o) _) eqn:Ho; [|done].
  intros [= ->]. done.
Qed.

(** The class as written serves every object of the queryset to every
    request. *)
Lemma BrowseViewSet_retrieve objects request file_pk :
  retrieve BrowseViewSet objects request file_pk =
  match find (fun f => bool_decide (id f = file_pk)) objects with
  | Some obj => Ok obj
  | None => Raise Http404
  end.
Proof.
  unfold retrieve. rewrite BrowseViewSet_permission_classes. reflexivity.
Qed.

End ViewSetProperties.

(** * The properties on sample requests *)

Section Samples.
Import Fixture.

#[local] Existing Instance viewer_ops.
#[local] Existing Instance diff_ops.
#[local] Existing Instance urls.
#[local] Existing Instance translation.
#[local] Existing Instance acl.
#[local] Existing Instance forms.
#[local] Existing Instance uuid.
#[local] Existing Instance api_permissions.
#[local] Existing Instance decorators.

Local Abbreviation value := (value SimpleViewer SimpleDiff).

(** A visitor gets no validation URL; a reviewer of a validated file gets
    the validation data. *)
Lemma setup_viewer_sample :
  (setup_viewer visitor_get a_file : gmap string value) !! "validate_url"
  = Some (VStr "")
  ∧ (setup_viewer reviewer_get a_file : gmap string value) !! "validation_data"
    = Some (VStr "{}").
Proof.
  split.
  - destruct (setup_viewer_gates_privileged_data visitor_get a_file)
      as (_ & _ & _ & _ & Hv & _). exact Hv.
  - destruct (setup_viewer_gates_privileged_data reviewer_get a_file)
      as (_ & _ & _ & _ & _ & _ & _ & Hd & _). exact Hd.
Defined.

(** Polling an extracted viewer and a diff whose right side is not
    extracted. *)
Lemma poll_status_sample :
  (poll (D:=SimpleDiff) visitor_get a_viewer pending_cache).1 !! "status"
  = Some (VBool true)
  ∧ (compare_poll visitor_get a_diff pending_cache).1 !! "status"
    = Some (VBool false : value).
Proof.
  exact (polls_report_extraction_status visitor_get a_viewer a_diff
           pending_cache).
Defined.

(** The message pending for file 42 is delivered by the first poll and
    gone at the second. *)
Lemma poll_twice_sample :
  (poll (D:=SimpleDiff) visitor_get a_viewer pending_cache).1 !! "msg"
  = Some (VList [VStr "extracting"])
  ∧ (poll (D:=SimpleDiff) visitor_get a_viewer
       (poll (D:=SimpleDiff) visitor_get a_viewer pending_cache).2).1 !! "msg"
    = Some (VList [VNone]).
Proof.
  destruct (pending_messages_delivered_once visitor_get a_viewer a_diff
              pending_cache) as [(Hfirst & _ & _ & Hsecond) _].
  split; [exact Hfirst | exact Hsecond].
Defined.

(** A valid posted form naming two files redirects to their comparison. *)
Lemma check_compare_form_sample :
  check_compare_form visitor_post valid_form
  = Some (Redirect (V:=SimpleViewer) (D:=SimpleDiff) "/files.compare").
Proof.
  destruct (check_compare_form_redirects visitor_post valid_form) as [Hc _].
  exact (Hc eq_refl eq_refl other_file eq_refl).
Defined.

(** Through [browse], a POST naming two files goes to their comparison and
    an empty POST comes back to the page. *)
Example browse_post_sample :
  browse visitor_post_both a_viewer None "file"
  = Ok (Redirect (V:=SimpleViewer) (D:=SimpleDiff) "/files.compare")
  ∧ browse visitor_post a_viewer None "file"
    = Ok (Redirect (V:=SimpleViewer) (D:=SimpleDiff) "/files/browse/42")
  ∧ check_compare_form visitor_post invalid_form
    = Some (Redirect (V:=SimpleViewer) (D:=SimpleDiff) "/files/browse/42").
Proof. repeat split; reflexivity. Qed.

(** Comparing two viewers with nothing pending returns no message. *)
Example compare_poll_sample :
  (compare_poll visitor_get a_diff empty_cache).1 !! "msg"
  = Some (VList [] : value)
  ∧ (compare_poll visitor_get a_diff pending_cache).1 !! "msg"
    = Some (VList [VStr "extracting"] : value).
Proof. split; reflexivity. Qed.

(** A visitor's GET for a key the viewer does not have raises Http404, and
    serving a key it has sends the file. *)
Lemma unknown_key_sample :
  browse visitor_get a_viewer (Some "nope") "file"
  = Raise (A:=response SimpleViewer SimpleDiff) Http404
  ∧ serve (D:=SimpleDiff) visitor_get a_viewer "manifest.json"
    = Ok (SendFile "/tmp/42/manifest.json" "application/json").
Proof.
  destruct (unknown_keys_raise_404 visitor_get a_viewer a_diff (Some "nope")
              "file" "manifest.json") as (Hb & _ & _ & _ & Hs).
  split.
  - apply Hb; [discriminate | reflexivity].
  - exact (Hs manifest eq_refl).
Defined.

(** Browsing the default file of an extracted text file renders its
    content, and comparing it with another file renders both sides; a diff
    that is not diffable renders neither. *)
Lemma browse_content_sample :
  (∃ data : gmap string value,
     browse visitor_get a_viewer None "file"
     = Ok (Render "files/viewer.html" data)
     ∧ data !! "content" = Some (VStr "{ }"))
  ∧ (∃ data : gmap string value,
       compare visitor_get a_diff None "file"
       = Ok (Render "files/viewer.html" data)
       ∧ data !! "left" = Some (VStr "{ }")
       ∧ data !! "right" = Some (VStr "{  }"))
  ∧ (∃ data : gmap string value,
       compare visitor_get (mkDiff a_viewer other_viewer ∅ false) None "file"
       = Ok (Render "files/viewer.html" data)
       ∧ ¬ is_Some (data !! "left")
       ∧ ¬ is_Some (data !! "right")).
Proof.
  split; [|split].
  - destruct (content_included_by_file_kind visitor_get a_viewer a_diff None
                "file") as (Hb & _).
    destruct Hb as (data & Hr & _ & Hval & _); [discriminate | reflexivity |].
    exists data. split; [exact Hr|]. by apply Hval.
  - destruct (content_included_by_file_kind visitor_get a_viewer a_diff None
                "file") as (_ & Hc & _).
    destruct Hc as (data & Hr & _ & _ & Hval);
      [discriminate | left; reflexivity |].
    exists data. split; [exact Hr|]. by apply Hval.
  - destruct (content_included_by_file_kind visitor_get a_viewer
                (mkDiff a_viewer other_viewer ∅ false) None "file")
      as (_ & Hc & _).
    destruct Hc as (data & Hr & Hl & Hrt & _);
      [discriminate | left; reflexivity |].
    exists data. split; [exact Hr|].
    split; [intros Hs; by apply Hl in Hs | intros Hs; by apply Hrt in Hs].
Defined.

(** A visitor's GET of a fragment renders the content template. *)
Lemma browse_fragment_sample :
  ∃ data : gmap string value,
    browse visitor_get a_viewer None "fragment"
    = Ok (Render "files/content.html" data).
Proof.
  destruct (views_render_or_return_json visitor_get a_viewer a_diff None
              "fragment") as (_ & Hb & _).
  apply Hb; [discriminate | reflexivity].
Defined.

(** The token saved by [redirect] opens [serve]. *)
Lemma redirect_then_serve_sample :
  let issued :=
    redirect (D:=SimpleDiff) visitor_get a_viewer "manifest.json" empty_cache in
  let request' :=
    mkRequest "GET" "/files/serve/42/manifest.json"
              {["token" := "c0ffee"]} ∅ 0 in
  issued.1 = Redirect "/files.serve?token=c0ffee"
  ∧ serve_view (D:=SimpleDiff) request' a_viewer "manifest.json" issued.2
    = Ok (SendFile "/tmp/42/manifest.json" "application/json")
  ∧ serve_view (D:=SimpleDiff) visitor_get a_viewer "manifest.json" issued.2
    = Raise PermissionDenied.
Proof.
  intros issued request'.
  destruct (file_serving_is_token_gated visitor_get a_viewer "manifest.json"
              empty_cache) as (_ & _ & _ & Hdenied & Hround).
  split; [reflexivity|]. split.
  - subst issued. rewrite (Hround request' eq_refl). reflexivity.
  - apply Hdenied. intros t Ht. discriminate Ht.
Defined.

(** ** Where the code departs from the specification *)

(** C5, as stated, fails on a POST: the key is not among the files, and
    [browse] answers with the redirect of the compare form instead of
    raising Http404. *)
Lemma browse_post_unknown_key_redirects :
  let viewer := browse_viewer a_viewer (Some "nope") in
  key_in (browse_key a_viewer (Some "nope")) (get_files viewer) = false
  ∧ browse visitor_post a_viewer (Some "nope") "file"
    = Ok (Redirect (V:=SimpleViewer) (D:=SimpleDiff) "/files/browse/42")
  ∧ ¬ (browse visitor_post a_viewer (Some "nope") "file"
       = Raise (A:=response SimpleViewer SimpleDiff) Http404
       ↔ key_in (browse_key a_viewer (Some "nope")) (get_files viewer) = false).
Proof.
  intros viewer. split; [reflexivity|]. split; [reflexivity|].
  intros [_ Hraise]. specialize (Hraise eq_refl). discriminate Hraise.
Qed.

(** C8, as stated, fails on a POST: with type 'fragment', [browse] answers
    with a redirect, which is neither a rendering of 'files/content.html'
    nor JSON. The [redirect] view, too, answers with a redirect. *)
Lemma browse_post_fragment_redirects :
  browse visitor_post a_viewer (Some "manifest.json") "fragment"
  = Ok (Redirect (V:=SimpleViewer) (D:=SimpleDiff) "/files/browse/42")
  ∧ (¬ ∃ data : gmap string value,
         browse visitor_post a_viewer (Some "manifest.json") "fragment"
         = Ok (Render "files/content.html" data))
  ∧ (redirect (D:=SimpleDiff) visitor_get a_viewer "manifest.json"
       empty_cache).1
    = Redirect "/files.serve?token=c0ffee".
Proof.
  split; [reflexivity|]. split; [|reflexivity].
  intros [data Hrender]. discriminate Hrender.
Qed.




(** C1. A visitor who satisfies none of AllowReviewer,
    AllowReviewerUnlisted and AllowAddonAuthor retrieves file 42 through
    [BrowseViewSet]: the permission classes in force are the empty list of
    the second assignment. With the first assignment in force the same
    request is denied. *)
Theorem BrowseViewSet_serves_unpermitted_visitor :
  existsb (fun p => satisfies p visitor_get a_file)
          [AllowReviewer; AllowReviewerUnlisted; AllowAddonAuthor] = false
  ∧ permission_classes BrowseViewSet = []
  ∧ retrieve BrowseViewSet [a_file] visitor_get 42 = Ok a_file
  ∧ retrieve BrowseViewSet_guarded [a_file] visitor_get 42
    = Raise PermissionDenied.
Proof. repeat split; reflexivity. Qed.

End Samples.

(** * Further properties of the views *)

(** Keys outside a literal list differ from each of its elements. *)
Ltac not_in_keys :=
  rewrite ?not_elem_of_cons; repeat split; try done; try apply not_elem_of_nil.

Section FurtherProperties.
Context {V D : Type}.
Context `{!FileViewer V} `{!DiffHelper V D}.
Context `{!Urls V D} `{!Translation} `{!Acl} `{!Forms} `{!Uuid}.

Local Abbreviation value := (value V D).
Local Abbreviation response := (response V D).
Local Abbreviation poll := (poll (D:=D)).
Local Abbreviation serve := (serve (D:=D)).

(** ** The template data of browse *)

(** The compare form never renders. *)
Lemma check_compare_form_redirect_only request form (r : response) :
  check_compare_form request form = Some r → ∃ url, r = Redirect url.
Proof.
  unfold check_compare_form. case_bool_decide; [|done]. intros [= <-]. eauto.
Qed.

(** The data of a rendering of [browse], spelled out. *)
Lemma browse_render_data request viewer key type tmpl data :
  browse request viewer key type = Ok (Render tmpl data) →
  let selected := browse_viewer viewer key in
  let base :=
    update [("viewer", VViewer selected);
            ("poll_url",
             VStr (reverse "files.poll" [VInt (id (viewer_file selected))]));
            ("form", VForm (browse_form request viewer));
            ("status", VBool true);
            ("files", VFiles (get_files selected));
            ("key", str_or_none (browse_key viewer key))]
           (setup_viewer request (viewer_file viewer)) in
  key_in (browse_key viewer key) (get_files selected) = true
  ∧ data = if negb (is_directory selected) && negb (is_binary selected)
           then setitem "content" (VStr (read_file selected)) base
           else base.
Proof.
  unfold browse, browse_key, browse_viewer, browse_form.
  destruct (check_compare_form _ _) as [r|] eqn:Hform.
  - apply check_compare_form_redirect_only in Hform as [url ->]. done.
  - destruct (key_in _ _); cbn [negb]; [|done]. intros [= <- <-]. done.
Qed.

(** The updates of [browse] leave the other keys of [setup_viewer] alone. *)
Lemma browse_render_keeps request viewer key type tmpl data k :
  browse request viewer key type = Ok (Render tmpl data) →
  k ∉ browse_updates →
  data !! k = setup_viewer request (viewer_file viewer) !! k.
Proof.
  intros [_ ->]%browse_render_data. unfold browse_updates.
  rewrite !not_elem_of_cons. intros (? & ? & ? & ? & ? & ? & ? & _).
  destruct (negb _ && negb _); cbn [update foldl fst snd]; unfold setitem;
    by rewrite !lookup_insert_ne by done.
Qed.

(** X1. Whenever [browse] renders, the selected key is a string that names
    an entry of [viewer.get_files()], and the template data carries it
    under 'key', the files under 'files', the selected viewer under
    'viewer', the files.poll URL of the file under 'poll_url', the compare
    form under 'form' and True under 'status'; every key other than these
    and 'content' is as [setup_viewer] returned it for [viewer.file]. *)
Theorem browse_render_context (request : Request) (viewer : V)
    (key : option string) (type tmpl : string) (data : gmap string value) :
  browse request viewer key type = Ok (Render tmpl data) →
  let selected := browse_viewer viewer key in
  (∃ k, browse_key viewer key = Some k
        ∧ is_Some (get_files selected !! k)
        ∧ data !! "key" = Some (VStr k))
  ∧ data !! "files" = Some (VFiles (get_files selected))
  ∧ data !! "viewer" = Some (VViewer selected)
  ∧ data !! "poll_url" =
    Some (VStr (reverse "files.poll" [VInt (id (viewer_file selected))]))
  ∧ data !! "form" = Some (VForm (browse_form request viewer))
  ∧ data !! "status" = Some (VBool true)
  ∧ (∀ k, k ∉ browse_updates →
          data !! k = setup_viewer request (viewer_file viewer) !! k).
Proof.
  intros Hrender selected.
  pose proof (fun k => browse_render_keeps _ _ _ _ _ _ k Hrender) as Hkeep.
  apply browse_render_data in Hrender as [Hin ->].
  assert (∃ k, browse_key viewer key = Some k
               ∧ is_Some (get_files selected !! k)) as (k & Hk & Hfile).
  { subst selected. destruct (browse_key viewer key) as [k|]; [|done].
    exists k. split; [done|]. by apply bool_decide_eq_true_1 in Hin. }
  rewrite Hk in Hkeep |- *. cbn [str_or_none] in Hkeep |- *.
  split; [exists k; split; [done|]; split; [done|] |];
    [|repeat split];
    try (destruct (negb _ && negb _); by dict_lookup).
Qed.

(** ** The template data of compare *)

(** The data of a rendering of [compare], spelled out. *)
Lemma compare_render_data request diff key type tmpl data :
  compare request diff key type = Ok (Render tmpl data) →
  let selected := compare_diff diff key in
  let base :=
    setitem "key" (str_or_none (compare_key diff key))
      (setitem "diff" (VDiff selected)
         (update [("status", VBool true);
                  ("files", VFiles (diff_get_files diff));
                  ("files_deleted", VFiles (diff_get_deleted_files diff))]
            (setitem "form" (VForm (compare_form request diff))
               (setitem "poll_url"
                  (VStr (reverse "files.compare.poll"
                           [VInt (id (viewer_file (left diff)));
                            VInt (id (viewer_file (right diff)))]))
                  (setitem "diff" (VDiff diff)
                     (setup_viewer request (viewer_file (left diff)))))))) in
  (key_in (compare_key diff key) (diff_get_files diff) = true
   ∨ key_in (compare_key diff key) (diff_get_deleted_files diff) = true)
  ∧ data = if is_diffable selected
           then setitem "right" (VStr (diff_read_file selected).2)
                  (setitem "left" (VStr (diff_read_file selected).1) base)
           else base.
Proof.
  unfold compare, compare_diff, compare_key, compare_form.
  destruct (check_compare_form _ _) as [r|] eqn:Hform.
  - apply check_compare_form_redirect_only in Hform as [url ->]. done.
  - destruct (key_in _ (diff_get_files diff)) eqn:Hf;
      destruct (key_in _ (diff_get_deleted_files diff)) eqn:Hd;
      cbn [negb andb]; [| | |done];
      intros [= <- <-]; (split; [by auto|]);
      destruct (is_diffable _); [destruct (diff_read_file _)| |
                                 destruct (diff_read_file _)| |
                                 destruct (diff_read_file _)|]; done.
Qed.

(** The updates of [compare] leave the other keys of [setup_viewer] alone. *)
Lemma compare_render_keeps request diff key type tmpl data k :
  compare request diff key type = Ok (Render tmpl data) →
  k ∉ compare_updates →
  data !! k = setup_viewer request (viewer_file (left diff)) !! k.
Proof.
  intros [_ ->]%compare_render_data. unfold compare_updates.
  rewrite !not_elem_of_cons. intros (? & ? & ? & ? & ? & ? & ? & ? & ? & _).
  destruct (is_diffable _); cbn [update foldl fst snd]; unfold setitem;
    by rewrite !lookup_insert_ne by done.
Qed.

(** X2. Whenever [compare] renders, the selected key is a string that
    names an entry of [diff.get_files()] or of [diff.get_deleted_files()];
    the template data carries it under 'key', the two file tables under
    'files' and 'files_deleted' as they were before the selection, the diff
    with the key selected under 'diff', the files.compare.poll URL of the
    two file ids under 'poll_url', the compare form under 'form' and True
    under 'status'; every key other than these, 'left' and 'right' is as
    [setup_viewer] returned it for the left file. *)
Theorem compare_render_context (request : Request) (diff : D)
    (key : option string) (type tmpl : string) (data : gmap string value) :
  compare request diff key type = Ok (Render tmpl data) →
  (∃ k, compare_key diff key = Some k
        ∧ (is_Some (diff_get_files diff !! k)
           ∨ is_Some (diff_get_deleted_files diff !! k))
        ∧ data !! "key" = Some (VStr k))
  ∧ data !! "files" = Some (VFiles (diff_get_files diff))
  ∧ data !! "files_deleted" = Some (VFiles (diff_get_deleted_files diff))
  ∧ data !! "diff" = Some (VDiff (compare_diff diff key))
  ∧ data !! "poll_url" =
    Some (VStr (reverse "files.compare.poll"
                  [VInt (id (viewer_file (left diff)));
                   VInt (id (viewer_file (right diff)))]))
  ∧ data !! "form" = Some (VForm (compare_form request diff))
  ∧ data !! "status" = Some (VBool true)
  ∧ (∀ k, k ∉ compare_updates →
          data !! k = setup_viewer request (viewer_file (left diff)) !! k).
Proof.
  intros Hrender.
  pose proof (fun k => compare_render_keeps _ _ _ _ _ _ k Hrender) as Hkeep.
  apply compare_render_data in Hrender as [Hin ->].
  assert (∃ k, compare_key diff key = Some k
               ∧ (is_Some (diff_get_files diff !! k)
                  ∨ is_Some (diff_get_deleted_files diff !! k)))
    as (k & Hk & Hfile).
  { destruct (compare_key diff key) as [k|]; [|by destruct Hin].
    exists k. split; [done|].
    destruct Hin as [Hin|Hin]; apply bool_decide_eq_true_1 in Hin; auto. }
  rewrite Hk in Hkeep |- *. cbn [str_or_none] in Hkeep |- *.
  split; [exists k; split; [done|]; split; [done|] |];
    [|repeat split];
    try (destruct (is_diffable _); by dict_lookup).
Qed.

(** ** What a page shows of the validation *)

(** The gate of [setup_viewer], on the three keys it guards. *)
Lemma setup_viewer_unprivileged request file_obj :
  privileged request file_obj = false →
  let data : gmap string value := setup_viewer request file_obj in
  data !! "validate_url" = Some (VStr "")
  ∧ data !! "automated_signing" = None
  ∧ data !! "validation_data" = None.
Proof.
  unfold privileged, setup_viewer. intros ->.
  destruct (is_reviewer _ _); unfold setup_viewer_initial;
    repeat split; by dict_lookup.
Qed.

(** X3. A page rendered by [browse] or [compare] for a requester who is
    neither a reviewer of the add-on nor passes the ownership check has an
    empty 'validate_url' and neither 'automated_signing' nor
    'validation_data' in its data: the later updates of the views do not
    touch what [setup_viewer] withheld. *)
Theorem rendered_pages_keep_validation_gated (request : Request)
    (viewer : V) (diff : D) (key : option string) (type tmpl : string)
    (data : gmap string value) :
  (browse request viewer key type = Ok (Render tmpl data)
   ∧ privileged request (viewer_file viewer) = false)
  ∨ (compare request diff key type = Ok (Render tmpl data)
     ∧ privileged request (viewer_file (left diff)) = false) →
  data !! "validate_url" = Some (VStr "")
  ∧ data !! "automated_signing" = None
  ∧ data !! "validation_data" = None.
Proof.
  intros [[Hr Hp] | [Hr Hp]].
  - rewrite !(browse_render_keeps _ _ _ _ _ _ _ Hr)
      by (unfold browse_updates; not_in_keys).
    by apply setup_viewer_unprivileged.
  - rewrite !(compare_render_keeps _ _ _ _ _ _ _ Hr)
      by (unfold compare_updates; not_in_keys).
    by apply setup_viewer_unprivileged.
Qed.

(** ** What the type argument and the method decide *)

(** X4. The type argument only picks the template: called with two type
    values on the same request, [browse] (and likewise [compare]) either
    gives the same redirect or the same Http404 twice, or renders twice
    with the same data, each time with the template of its type. *)
Theorem type_only_picks_template (request : Request) (viewer : V) (diff : D)
    (key : option string) (type1 type2 : string) :
  match browse request viewer key type1, browse request viewer key type2 with
  | Ok (Render tmpl1 data1), Ok (Render tmpl2 data2) =>
    tmpl1 = template_for type1 ∧ tmpl2 = template_for type2 ∧ data1 = data2
  | r1, r2 => r1 = r2
  end
  ∧ match compare request diff key type1, compare request diff key type2 with
    | Ok (Render tmpl1 data1), Ok (Render tmpl2 data2) =>
      tmpl1 = template_for type1 ∧ tmpl2 = template_for type2 ∧ data1 = data2
    | r1, r2 => r1 = r2
    end.
Proof.
  split.
  - unfold browse. destruct (check_compare_form _ _) as [r|] eqn:Hform.
    + by apply check_compare_form_redirect_only in Hform as [url ->].
    + destruct (key_in _ _); cbn [negb]; cbv beta iota; [|done].
      repeat split; reflexivity.
  - unfold compare. destruct (check_compare_form _ _) as [r|] eqn:Hform.
    + by apply check_compare_form_redirect_only in Hform as [url ->].
    + destruct (negb (key_in _ _) && negb (key_in _ _)); cbv beta iota; [done|].
      repeat split; reflexivity.
Qed.

(** X5. [browse] and [compare] answer with a redirect exactly when the
    request is a POST; they never send a file and raise nothing but
    Http404. [serve] answers with nothing but a file and raises nothing
    but Http404. *)
Theorem view_outcomes (request : Request) (viewer : V) (diff : D)
    (key : option string) (type served : string) :
  (method request = "POST"
   ↔ ∃ url, browse request viewer key type = Ok (Redirect url))
  ∧ (method request = "POST"
     ↔ ∃ url, compare request diff key type = Ok (Redirect url))
  ∧ (∀ r, browse request viewer key type = Ok r
          ∨ compare request diff key type = Ok r →
          ∃ a b, r = Redirect a ∨ r = Render a b)
  ∧ (∀ e, browse request viewer key type = Raise e
          ∨ compare request diff key type = Raise e
          ∨ serve request viewer served = Raise e →
          e = Http404)
  ∧ (∀ r, serve request viewer served = Ok r →
          ∃ file_path content_type, r = SendFile file_path content_type).
Proof.
  assert (∀ e, serve request viewer served = Raise e → e = Http404) as Hserve.
  { intros e. rewrite serve_eq.
    destruct (get_files viewer !! served); by intros [= <-]. }
  assert (∀ r, serve request viewer served = Ok r →
               ∃ file_path content_type, r = SendFile file_path content_type)
    as Hsent.
  { intros r. rewrite serve_eq.
    destruct (get_files viewer !! served); [|done]. intros [= <-]. eauto. }
  destruct (decide (method request = "POST")) as [Hm|Hm].
  - destruct (browse_post request viewer key type Hm) as [u1 Hb].
    destruct (compare_post request diff key type Hm) as [u2 Hc].
    rewrite Hb, Hc.
    split; [split; [eauto | done]|]. split; [split; [eauto | done]|].
    split; [|split; [|done]].
    + intros r [[= <-] | [= <-]]; [exists u1, ∅ | exists u2, ∅]; by left.
    + intros e [? | [? | He]]; [done..|]. by apply Hserve.
  - destruct (browse_non_post request viewer key type Hm)
      as [[_ Hb] | (_ & d1 & Hb & _)];
      destruct (compare_non_post request diff key type Hm)
        as [(_ & _ & Hc) | (_ & d2 & Hc & _)]; rewrite Hb, Hc.
    all: split; [split; [done | by intros [? ?]] |].
    all: split; [split; [done | by intros [? ?]] |].
    all: split; [|split; [|done]].
    all: try (intros r [[= <-] | [= <-]]; eexists _, _; by right).
    all: intros e [He | [He | He]]; try (by simplify_eq); by apply Hserve.
Qed.

(** X6. Past the compare form there is nothing to show without a file:
    when the viewer has no files, or has no default for a missing key,
    [browse] raises Http404 whatever the key; when the diff has neither
    files nor deleted files, or its left side has no default for a missing
    key, [compare] raises Http404. *)
Theorem nothing_to_show_is_404 (request : Request) (viewer : V) (diff : D)
    (key : option string) (type : string) :
  method request ≠ "POST" →
  (get_files (browse_viewer viewer key) = ∅ ∨ browse_key viewer key = None →
   browse request viewer key type = Raise Http404)
  ∧ ((diff_get_files diff = ∅ ∧ diff_get_deleted_files diff = ∅)
     ∨ compare_key diff key = None →
     compare request diff key type = Raise Http404).
Proof.
  intros Hm. split.
  - intros Hnone.
    destruct (browse_non_post request viewer key type Hm)
      as [[_ Hb] | (Hin & _)]; [done|].
    destruct Hnone as [Hnone|Hnone]; rewrite Hnone in Hin; [|done].
    destruct (browse_key viewer key) as [k|]; [|done]. cbn in Hin.
    apply bool_decide_eq_true_1 in Hin as [? Hin]. by rewrite lookup_empty in Hin.
  - intros Hnone.
    destruct (compare_non_post request diff key type Hm)
      as [(_ & _ & Hc) | (Hin & _)]; [done|].
    destruct Hnone as [[Hf Hd]|Hnone].
    + rewrite Hf, Hd in Hin.
      destruct (compare_key diff key) as [k|]; [|by destruct Hin]. cbn in Hin.
      destruct Hin as [Hin|Hin]; apply bool_decide_eq_true_1 in Hin as [? Hin];
        by rewrite lookup_empty in Hin.
    + rewrite Hnone in Hin. by destruct Hin.
Qed.

(** ** The keys of setup_viewer *)

(** X7. [setup_viewer] returns the seven keys 'file', 'version', 'addon',
    'status', 'selected', 'validate_url' and 'file_link' for everybody,
    'automated_signing' in addition for a reviewer or owner, and
    'validation_data' in addition when the file of a reviewer or owner has
    been validated, and no other key; 'file', 'version' and 'addon' are the
    file it was given, its version and the add-on of that version. *)
Theorem setup_viewer_key_set (request : Request) (file_obj : File) :
  let data : gmap string value := setup_viewer request file_obj in
  (∀ k, is_Some (data !! k)
        ↔ k ∈ (["file"; "version"; "addon"; "status"; "selected";
                "validate_url"; "file_link"]
               ++ (if privileged request file_obj
                   then "automated_signing"
                        :: (if has_been_validated file_obj
                            then ["validation_data"] else [])
                   else []))%list)
  ∧ data !! "file" = Some (VFile file_obj)
  ∧ data !! "version" = Some (VVersion (version file_obj))
  ∧ data !! "addon" = Some (VAddon (addon (version file_obj))).
Proof.
  intros data. split.
  - intros k. subst data. unfold privileged, setup_viewer, setup_viewer_initial.
    destruct (is_reviewer _ _); destruct (check_addon_ownership _ _ _ _);
      destruct (has_been_validated _); cbn [orb app update dict foldl fst snd];
      unfold setitem;
      rewrite !lookup_insert_is_Some', lookup_empty, !elem_of_cons, elem_of_nil,
        <- not_eq_None_Some;
      intuition congruence.
  - subst data.
    rewrite !setup_viewer_other_keys by (unfold setup_viewer_updates; not_in_keys).
    unfold setup_viewer_initial. repeat split; by dict_lookup.
Qed.

(** ** Messages across the two polling views *)

(** X8. [compare_poll] reads the messages as [poll] on the left viewer
    followed by [poll] on the right viewer would: it leaves the cache as
    these two polls leave it, and its 'msg' list is made of the messages the
    two polls return that are true values, in that order. *)
Theorem compare_poll_is_two_polls (request : Request) (diff : D) (c : Cache) :
  let first := poll request (left diff) c in
  let second := poll request (right diff) first.2 in
  let compared := compare_poll request diff c in
  compared.2 = second.2
  ∧ ∃ ml mr : option string,
      first.1 !! "msg" = Some (VList [str_or_none ml])
      ∧ second.1 !! "msg" = Some (VList [str_or_none mr])
      ∧ compared.1 !! "msg"
        = Some (VList (map str_or_none (List.filter truthy [ml; mr]))).
Proof.
  intros first second compared. subst first second compared.
  rewrite !poll_eq, compare_poll_eq. cbn [fst snd messages tokens drawn].
  split; [done|].
  exists (messages c !! message_key (left diff)),
         (delete (message_key (left diff)) (messages c)
            !! message_key (right diff)).
  repeat split; by dict_lookup.
Qed.

(** X9. When both sides of the diff have the same message key, a pending
    message is returned once by [compare_poll], not twice. When the keys
    differ and both sides have a non-empty message pending, 'msg' is the
    left message followed by the right one. *)
Theorem compare_poll_sides (request : Request) (diff : D) (c : Cache) :
  let kl := message_key (left diff) in
  let kr := message_key (right diff) in
  let compared := compare_poll request diff c in
  (kl = kr →
   compared.1 !! "msg"
   = Some (VList (map str_or_none (List.filter truthy [messages c !! kl]))))
  ∧ (kl ≠ kr →
     ∀ sl sr, messages c !! kl = Some sl → messages c !! kr = Some sr →
              sl ≠ "" → sr ≠ "" →
              compared.1 !! "msg" = Some (VList [VStr sl; VStr sr])).
Proof.
  intros kl kr compared. subst compared. rewrite compare_poll_eq.
  cbn [fst]. fold kl kr. split.
  - intros <-. rewrite lookup_delete_eq. dict_lookup. cbn [List.filter truthy].
    by destruct (truthy (messages c !! kl)).
  - intros Hne sl sr Hl Hr Hsl Hsr.
    rewrite lookup_delete_ne, Hl, Hr by done. dict_lookup.
    cbn [List.filter truthy]. by rewrite !bool_decide_eq_false_2 by done.
Qed.

(** X10. Polling takes from the cache only what it returns: [poll] leaves
    every message pending under another key than the viewer's in place, and
    [compare_poll] every message pending under another key than those of
    the two sides. *)
Theorem polls_leave_other_messages (request : Request) (viewer : V)
    (diff : D) (c : Cache) (k : string) :
  (k ≠ message_key viewer →
   messages (poll request viewer c).2 !! k = messages c !! k)
  ∧ (k ≠ message_key (left diff) → k ≠ message_key (right diff) →
     messages (compare_poll request diff c).2 !! k = messages c !! k).
Proof.
  rewrite poll_eq, compare_poll_eq. cbn [snd messages]. split.
  - intros Hk. by rewrite lookup_delete_ne.
  - intros Hl Hr. by rewrite !lookup_delete_ne.
Qed.

(** ** The serializer context *)

(** X11. [get_serializer_context] always has 'requested_file': the 'file'
    URL argument, or [None] when the view was called without one, whatever
    the inherited context held under that key; every other key of the
    inherited context is kept, and nothing else is added. *)
Theorem serializer_context_requested_file
    (super_context : gmap string value) (kwargs : gmap string string) :
  let context := get_serializer_context super_context kwargs in
  (∀ file, kwargs !! "file" = Some file →
           context !! "requested_file" = Some (VStr file))
  ∧ (kwargs !! "file" = None → context !! "requested_file" = Some VNone)
  ∧ (∀ k, k ≠ "requested_file" → context !! k = super_context !! k)
  ∧ dom context = {["requested_file"]} ∪ dom super_context.
Proof.
  intros context. subst context. unfold get_serializer_context.
  cbn [update foldl fst snd]. unfold setitem. repeat split.
  - intros file ->. by rewrite lookup_insert_eq.
  - intros ->. by rewrite lookup_insert_eq.
  - intros k Hk. by rewrite lookup_insert_ne.
  - by rewrite dom_insert_L.
Qed.

(** ** A POST to browse or compare *)

(** X12. A POST to [browse] or [compare] is answered from the compare form
    alone, whatever the key and the type: with a redirect to the
    files.compare URL of the two cleaned files when the form is valid and
    names a right file, to the files.list URL of the left file when it is
    valid and names none, and back to the request path when the form is
    invalid. No file is selected and no page is rendered. *)
Theorem post_is_answered_by_compare_form (request : Request) (viewer : V)
    (diff : D) (key : option string) (type : string) :
  method request = "POST" →
  browse request viewer key type
  = Ok (Redirect (compare_form_target request (browse_form request viewer)))
  ∧ compare request diff key type
    = Ok (Redirect (compare_form_target request (compare_form request diff))).
Proof.
  intros Hm. unfold browse, compare, check_compare_form.
  rewrite !bool_decide_eq_true_2 by done. done.
Qed.

End FurtherProperties.

(** * The further properties on sample requests *)

Section FurtherSamples.
Import Fixture.

#[local] Existing Instance viewer_ops.
#[local] Existing Instance diff_ops.
#[local] Existing Instance urls.
#[local] Existing Instance translation.
#[local] Existing Instance acl.
#[local] Existing Instance forms.
#[local] Existing Instance uuid.

Local Abbreviation value := (value SimpleViewer SimpleDiff).

(** The page of the default file of viewer 42 names that file. *)
Lemma browse_context_sample :
  ∃ data : gmap string value,
    browse visitor_get a_viewer None "file"
    = Ok (Render "files/viewer.html" data)
    ∧ data !! "key" = Some (VStr "manifest.json")
    ∧ data !! "status" = Some (VBool true).
Proof.
  eexists. split; [reflexivity|].
  lazymatch goal with
  | |- ?d !! _ = _ ∧ _ =>
    assert (browse visitor_get a_viewer None "file"
            = Ok (Render "files/viewer.html" d)) as Hrender by reflexivity;
    destruct (browse_render_context visitor_get a_viewer None "file"
                "files/viewer.html" d Hrender)
      as ((k & Hk & _ & Hkey) & _ & _ & _ & _ & Hstatus & _)
  end.
  split; [|exact Hstatus]. rewrite Hkey. by injection Hk as <-.
Defined.

(** The comparison page of files 42 and 43 names the same default file. *)
Lemma compare_context_sample :
  ∃ data : gmap string value,
    compare visitor_get a_diff None "file"
    = Ok (Render "files/viewer.html" data)
    ∧ data !! "key" = Some (VStr "manifest.json")
    ∧ data !! "poll_url" = Some (VStr "/files.compare.poll").
Proof.
  eexists. split; [reflexivity|].
  lazymatch goal with
  | |- ?d !! _ = _ ∧ _ =>
    assert (compare visitor_get a_diff None "file"
            = Ok (Render "files/viewer.html" d)) as Hrender by reflexivity;
    destruct (compare_render_context visitor_get a_diff None "file"
                "files/viewer.html" d Hrender)
      as ((k & Hk & _ & Hkey) & _ & _ & _ & Hpoll & _)
  end.
  split; [|exact Hpoll]. rewrite Hkey. by injection Hk as <-.
Defined.

(** A visitor's page carries no validation data. *)
Lemma visitor_page_sample :
  ∃ data : gmap string value,
    browse visitor_get a_viewer None "file"
    = Ok (Render "files/viewer.html" data)
    ∧ data !! "validate_url" = Some (VStr "")
    ∧ data !! "validation_data" = None.
Proof.
  eexists. split; [reflexivity|].
  lazymatch goal with
  | |- ?d !! _ = _ ∧ _ =>
    assert (browse visitor_get a_viewer None "file"
            = Ok (Render "files/viewer.html" d)) as Hrender by reflexivity;
    destruct (rendered_pages_keep_validation_gated visitor_get a_viewer a_diff
                None "file" "files/viewer.html" d
                (or_introl (conj Hrender eq_refl)))
      as (Hurl & _ & Hdata)
  end.
  split; [exact Hurl | exact Hdata].
Defined.

(** A viewer without files has nothing to browse. *)
Lemma empty_viewer_sample :
  browse visitor_get (mkViewer a_file "42" ∅ None true false false "") None
         "file"
  = Raise (A:=response SimpleViewer SimpleDiff) Http404.
Proof.
  destruct (nothing_to_show_is_404 visitor_get
              (mkViewer a_file "42" ∅ None true false false "") a_diff None
              "file") as [Hb _]; [discriminate|].
  apply Hb. by left.
Defined.

(** Comparing file 42 with itself returns its pending message once. *)
Lemma compare_poll_same_file_sample :
  (compare_poll visitor_get (mkDiff a_viewer a_viewer ∅ true)
     pending_cache).1 !! "msg"
  = Some (VList [VStr "extracting"] : value).
Proof.
  destruct (compare_poll_sides visitor_get (mkDiff a_viewer a_viewer ∅ true)
              pending_cache) as [Hsame _].
  exact (Hsame eq_refl).
Defined.

(** Polling file 42 leaves the message of file 43 pending. *)
Lemma poll_other_message_sample :
  let c :=
    mkCache (<["file-viewer:43" := "queued"]>
               {["file-viewer:42" := "extracting"]}) ∅ 0 in
  messages (poll (D:=SimpleDiff) visitor_get a_viewer c).2 !! "file-viewer:43"
  = Some "queued".
Proof.
  intros c.
  destruct (polls_leave_other_messages visitor_get a_viewer a_diff c
              "file-viewer:43") as [Hpoll _].
  rewrite Hpoll; [reflexivity | discriminate].
Defined.

(** The serializer context of a call for manifest.json. *)
Lemma serializer_context_sample :
  (get_serializer_context ∅ {["file" := "manifest.json"]}
   : gmap string value) !! "requested_file"
  = Some (VStr "manifest.json").
Proof.
  destruct (serializer_context_requested_file
              (∅ : gmap string value) {["file" := "manifest.json"]})
    as [Hfile _].
  exact (Hfile "manifest.json" eq_refl).
Defined.

(** A POST naming two files goes to their comparison, whatever the key. *)
Lemma post_sample :
  browse visitor_post_both a_viewer (Some "nope") "fragment"
  = Ok (Redirect (V:=SimpleViewer) (D:=SimpleDiff) "/files.compare").
Proof.
  destruct (post_is_answered_by_compare_form visitor_post_both a_viewer a_diff
              (Some "nope") "fragment" eq_refl) as [Hb _].
  exact Hb.
Defined.

End FurtherSamples.
